(** * Validation of the space-station, alien-contact and space-mission records

    The three scripts of the repository ([ex0/space_station.py],
    [ex1/alien_contact.py], [ex2/space_crew.py]) declare record classes whose
    fields carry constraints and whose [model_validator(mode="after")] methods
    check cross-field rules.  This development embeds the declarations and
    the rule methods, together with a model of the validation engine that
    runs them, and proves the properties the specification states. *)

From Stdlib Require Import ZArith QArith String Ascii List Bool Lia.
From Stdlib Require Import DecimalString.
From Stdlib Require Import Floats.PrimFloat Floats.FloatOps Floats.SpecFloat.
Import ListNotations.

Local Open Scope string_scope.
Local Open Scope Z_scope.
Local Open Scope list_scope.

(* ================================================================== *)
(** * Python values *)
(* ================================================================== *)

Module Py.

(** [datetime.datetime]: the fields of a naive timestamp. *)
Record datetime : Type := mk_datetime
  { year : Z; month : Z; day : Z; hour : Z; minute : Z; second : Z }.

(** The raw values a caller passes as keyword arguments.  A Python [float]
    is a binary64 number, a [str] a sequence of characters, one [ascii]
    each, so that [String.length] is [len] (the strings of the sources are
    ASCII), an enum member is named by its class and its member name, a
    [dict] is a list of key/value pairs whose keys are pairwise
    different. *)
#[warnings="-register-all"]
Inductive pyval : Type :=
| PNone
| PBool (b : bool)
| PInt (z : Z)
| PFloat (f : float)
| PStr (s : string)
| PDatetime (d : datetime)
| PEnum (cls member : string)
| PList (l : list pyval)
| PDict (d : list (string * pyval)).

Definition kwargs : Type := list (string * pyval).

(** [d.get(key)] *)
Fixpoint get (key : string) (kw : kwargs) : option pyval :=
  match kw with
  | [] => None
  | (k, v) :: kw' => if String.eqb k key then Some v else get key kw'
  end.

(** [float(z)] for a Python [int]: the nearest binary64 number. *)
Definition float_of_int (z : Z) : float :=
  SF2Prim (binary_normalize prec emax z 0 false).

(** [a / b] on two [int]s (true division).  For operands below 2^53, the
    only ones a list length can reach here, CPython divides the two
    operands converted to [float]. *)
Definition truediv (a b : Z) : float :=
  PrimFloat.div (float_of_int a) (float_of_int b).

(** [n < x] for an [int] [n] and a [float] [x]: the comparison of the two
    numbers, which for [n] below 2^53 is that of [float(n)] with [x]. *)
Definition int_lt_float (n : Z) (x : float) : bool :=
  PrimFloat.ltb (float_of_int n) x.

(** [s.startswith(p)] *)
Definition startswith (s p : string) : bool := String.prefix p s.

(** Truthiness of an [Optional[str]]: [None] and the empty string are
    false. *)
Definition truthy (o : option string) : bool :=
  match o with
  | None => false
  | Some EmptyString => false
  | Some (String _ _) => true
  end.

(** The double-quote character, for messages that quote a prefix. *)
Definition dquote : string := String "034"%char EmptyString.

(** Exceptions: a method body either returns or raises [ValueError(msg)]. *)
Inductive exn (A : Type) : Type :=
| Return (a : A)
| Raise (msg : string).
Arguments Return {A} a.
Arguments Raise {A} msg.

Definition bind {A B} (c : exn A) (k : A -> exn B) : exn B :=
  match c with
  | Return a => k a
  | Raise m => Raise m
  end.

(** [if cond: raise ValueError(msg)] *)
Definition raise_if (cond : bool) (msg : string) : exn unit :=
  if cond then Raise msg else Return tt.

(** Standard output, as the lines printed so far; [print(line)] adds one. *)
Definition stdout : Type := list string.

Definition print (line : string) (out : stdout) : stdout := out ++ [line].

(** [str(z)] for an [int], as an f-string formats it: the decimal numeral. *)
Definition str_of_int (z : Z) : string := NilZero.string_of_int (Z.to_int z).

(** [str(x)] for a [float], as an f-string formats it: the shortest
    numeral that reads back as [x], taken from the interpreter. *)
Class Formatting : Type :=
  { str_of_float : float -> string }.

(** [str(o)] for an [Optional[str]]. *)
Definition str_of_optional (o : option string) : string :=
  match o with
  | Some s => s
  | None => "None"
  end.

End Py.
Export Py.

Declare Scope py_scope.
Delimit Scope py_scope with py.
Notation "c ;; k" := (bind c (fun _ => k))
  (at level 61, right associativity) : py_scope.

(* ================================================================== *)
(** * The validation engine *)
(* ================================================================== *)

(** Modelled from the spec: the validation engine ([BaseModel], [Field] and
    [model_validator] of the pydantic library) is not part of the
    repository's sources.  The definitions of this module follow the
    algorithm of the specification's section 4.1: fields are looked up,
    defaulted, coerced and checked in declaration order with every violation
    accumulated; the record-level rules run only on a record whose fields
    all passed, and the first rule that raises ends the validation.  The
    coercions are those the specification names: a value of the declared
    type is taken as it is, text is parsed by the conversions the caller
    supplies, an enum member is looked up by its value, an integer is
    widened to a float, and a nested mapping is validated as a record. *)
Module Pydantic.

(** The conversions from text that the engine is given by its caller. *)
Class Conversions : Type :=
  { int_of_str : string -> option Z;
    float_of_str : string -> option float;
    datetime_of_str : string -> option datetime }.

Inductive loc_item : Type :=
| Key (name : string)
| Index (i : nat).

Definition loc : Type := list loc_item.

Inductive constraint : Type :=
| TooShort (min_length : nat)
| TooLong (max_length : nat)
| GreaterThanEqual (ge : Z)
| LessThanEqual (le : Z)
| GreaterThanEqualF (ge : float)
| LessThanEqualF (le : float).

(** The four kinds of violation.  A rule violation carries the message of
    the [ValueError] the rule raised. *)
Inductive Violation : Type :=
| MissingField (l : loc)
| TypeMismatch (l : loc) (expected : string)
| ConstraintViolation (l : loc) (c : constraint)
| RuleViolation (l : loc) (msg : string).

Definition field_level (v : Violation) : bool :=
  match v with
  | RuleViolation _ _ => false
  | _ => true
  end.

Inductive Result (A : Type) : Type :=
| Ok (a : A)
| Err (errs : list Violation).
Arguments Ok {A} a.
Arguments Err {A} errs.

Definition errors {A} (r : Result A) : list Violation :=
  match r with
  | Ok _ => []
  | Err e => e
  end.

Definition fmap {A B} (f : A -> B) (x : Result A) : Result B :=
  match x with
  | Ok a => Ok (f a)
  | Err e => Err e
  end.

(** Modelled from the spec: the accumulation of step 3.  Both sides are
    evaluated, and the violations of the left come before those of the
    right. *)
Definition ap {A B} (f : Result (A -> B)) (x : Result A) : Result B :=
  match f, x with
  | Ok g, Ok a => Ok (g a)
  | Ok _, Err e => Err e
  | Err e, Ok _ => Err e
  | Err e1, Err e2 => Err (e1 ++ e2)
  end.

(** ** Declared types *)

(** A scalar type with its constraints: how a raw value is coerced, and
    which constraint, if any, the coerced value breaks. *)
Record FieldType (A : Type) : Type :=
  { expected : string;
    coerce : pyval -> option A;
    check : A -> option constraint }.
Arguments expected {A} _.
Arguments coerce {A} _ _.
Arguments check {A} _ _.

Definition orelse (a b : option constraint) : option constraint :=
  match a with
  | Some c => Some c
  | None => b
  end.

Definition check_min_length (min_length : option nat) (n : nat) : option constraint :=
  match min_length with
  | Some m => if (n <? m)%nat then Some (TooShort m) else None
  | None => None
  end.

Definition check_max_length (max_length : option nat) (n : nat) : option constraint :=
  match max_length with
  | Some m => if (m <? n)%nat then Some (TooLong m) else None
  | None => None
  end.

(** [str] with [Field(min_length=..., max_length=...)] *)
Definition str_ (min_length max_length : option nat) : FieldType string :=
  {| expected := "str";
     coerce := fun x => match x with PStr s => Some s | _ => None end;
     check := fun s =>
       orelse (check_min_length min_length (String.length s))
              (check_max_length max_length (String.length s)) |}.

(** [int] with [Field(ge=..., le=...)] *)
Definition int_ `{Conversions} (ge le : option Z) : FieldType Z :=
  {| expected := "int";
     coerce := fun x =>
       match x with
       | PInt z => Some z
       | PStr s => int_of_str s
       | _ => None
       end;
     check := fun z =>
       orelse (match le with
               | Some b => if b <? z then Some (LessThanEqual b) else None
               | None => None
               end)
              (match ge with
               | Some b => if z <? b then Some (GreaterThanEqual b) else None
               | None => None
               end) |}.

(** [float] with [Field(ge=..., le=...)].  A value is accepted when
    [ge <= x] and [x <= le] hold in the binary64 order, which no NaN
    satisfies. *)
Definition float_ `{Conversions} (ge le : option float) : FieldType float :=
  {| expected := "float";
     coerce := fun x =>
       match x with
       | PFloat f => Some f
       | PInt z => Some (float_of_int z)
       | PStr s => float_of_str s
       | _ => None
       end;
     check := fun f =>
       orelse (match le with
               | Some b => if PrimFloat.leb f b then None else Some (LessThanEqualF b)
               | None => None
               end)
              (match ge with
               | Some b => if PrimFloat.leb b f then None else Some (GreaterThanEqualF b)
               | None => None
               end) |}.

Definition bool_ : FieldType bool :=
  {| expected := "bool";
     coerce := fun x => match x with PBool b => Some b | _ => None end;
     check := fun _ => None |}.

Definition datetime_ `{Conversions} : FieldType datetime :=
  {| expected := "datetime";
     coerce := fun x =>
       match x with
       | PDatetime d => Some d
       | PStr s => datetime_of_str s
       | _ => None
       end;
     check := fun _ => None |}.

(** An [Enum] class: its name and, for each member, the member's name, its
    value and the member itself. *)
Record EnumClass (E : Type) : Type :=
  { enum_name : string;
    enum_members : list (string * string * E) }.
Arguments enum_name {E} _.
Arguments enum_members {E} _.

Fixpoint member_by_name {E} (ms : list (string * string * E)) (n : string) : option E :=
  match ms with
  | [] => None
  | (n', _, e) :: ms' => if String.eqb n' n then Some e else member_by_name ms' n
  end.

Fixpoint member_by_value {E} (ms : list (string * string * E)) (v : string) : option E :=
  match ms with
  | [] => None
  | (_, v', e) :: ms' => if String.eqb v' v then Some e else member_by_value ms' v
  end.

(** A field annotated with an enum class takes a member of the class, or
    the value of one. *)
Definition enum_ {E} (cls : EnumClass E) : FieldType E :=
  {| expected := enum_name cls;
     coerce := fun x =>
       match x with
       | PEnum c n =>
           if String.eqb c (enum_name cls)
           then member_by_name (enum_members cls) n else None
       | PStr v => member_by_value (enum_members cls) v
       | _ => None
       end;
     check := fun _ => None |}.

(** [Optional[T]]: [None], or a [T] with the constraints of [T]. *)
Definition optional {A} (t : FieldType A) : FieldType (option A) :=
  {| expected := expected t;
     coerce := fun x =>
       match x with
       | PNone => Some None
       | _ => option_map Some (coerce t x)
       end;
     check := fun o =>
       match o with
       | Some a => check t a
       | None => None
       end |}.

(** ** Validators *)

Definition validator (A : Type) : Type := loc -> pyval -> Result A.

(** An annotation: the validator of the declared type. *)
Record Annotation (A : Type) : Type :=
  { validate : validator A }.
Arguments validate {A} _ _ _.

Definition scalar {A} (t : FieldType A) : Annotation A :=
  {| validate := fun l x =>
       match coerce t x with
       | None => Err [TypeMismatch l (expected t)]
       | Some a =>
           match check t a with
           | Some c => Err [ConstraintViolation l c]
           | None => Ok a
           end
       end |}.

(** The items of a list, each validated at its index; the violations of
    all items are accumulated. *)
Fixpoint validate_items {A} (item : validator A) (l : loc) (i : nat)
  (xs : list pyval) : Result (list A) :=
  match xs with
  | [] => Ok []
  | x :: xs' =>
      ap (fmap cons (item (l ++ [Index i]) x)) (validate_items item l (S i) xs')
  end.

(** [List[T]] with [Field(min_length=..., max_length=...)], in the order
    of steps 2 and 3: the list is coerced by validating every item, and the
    violations of the items are the violations of the field; the length
    constraints are applied to the coerced list. *)
Definition list_ {A} (item : Annotation A) (min_length max_length : option nat)
  : Annotation (list A) :=
  {| validate := fun l x =>
       match x with
       | PList xs =>
           match validate_items (validate item) l 0 xs with
           | Err e => Err e
           | Ok vs =>
               match orelse (check_min_length min_length (List.length vs))
                            (check_max_length max_length (List.length vs)) with
               | Some c => Err [ConstraintViolation l c]
               | None => Ok vs
               end
           end
       | _ => Err [TypeMismatch l "list"]
       end |}.

(** ** Fields and models *)

(** A declared field: [name: annotation = default]. *)
Record Field (A : Type) : Type :=
  { f_name : string;
    f_annotation : Annotation A;
    f_default : option A }.
Arguments f_name {A} _.
Arguments f_annotation {A} _.
Arguments f_default {A} _.

(** [name: T = Field(...)], without a default. *)
Definition required {A} (name : string) (a : Annotation A) : Field A :=
  {| f_name := name; f_annotation := a; f_default := None |}.

(** [name: T = default] and [name: T = Field(default=default, ...)] *)
Definition defaulted {A} (name : string) (a : Annotation A) (d : A) : Field A :=
  {| f_name := name; f_annotation := a; f_default := Some d |}.

(** Modelled from the spec: the per-field part of the engine, which the
    sources only call.  Steps 1 to 3 for one field: look the raw value up,
    substitute the default, coerce and check. *)
Definition validate_field {A} (f : Field A) (l : loc) (kw : kwargs) : Result A :=
  match get (f_name f) kw with
  | Some x => validate (f_annotation f) (l ++ [Key (f_name f)]) x
  | None =>
      match f_default f with
      | Some d => Ok d
      | None => Err [MissingField (l ++ [Key (f_name f)])]
      end
  end.

(** What the class keeps of a declared field once its type is forgotten:
    its name and the violations it reports on an input. *)
Record FieldInfo : Type :=
  { fi_name : string;
    fi_errors : loc -> kwargs -> list Violation }.

Definition info {A} (f : Field A) : FieldInfo :=
  {| fi_name := f_name f;
     fi_errors := fun l kw => errors (validate_field f l kw) |}.

(** A model class: its fields in declaration order, the field phase that
    assembles the record, the [model_validator(mode="after")] method, and
    the dump of a record to raw values. *)
Class BaseModel (R : Type) : Type :=
  { model_fields : list FieldInfo;
    validate_fields : loc -> kwargs -> Result R;
    model_validator : R -> exn R;
    model_dump : R -> kwargs }.

(** Modelled from the spec: the rule phase of the engine.  Step 5: the
    rules run on the assembled record; a raised [ValueError] becomes the
    single violation of the result. *)
Definition run_after {R} (after : R -> exn R) (l : loc) (r : R) : Result R :=
  match after r with
  | Return r' => Ok r'
  | Raise msg => Err [RuleViolation l msg]
  end.

(** Modelled from the spec: the two phases of the engine.  Steps 4 and 5:
    the field phase gates the rule phase. *)
Definition validate_with {R} (fields : loc -> kwargs -> Result R)
  (after : R -> exn R) (l : loc) (kw : kwargs) : Result R :=
  match fields l kw with
  | Err e => Err e
  | Ok r => run_after after l r
  end.

(** Calling the class on the keyword arguments [kw]. *)
Definition model_validate {R} `{BaseModel R} (kw : kwargs) : Result R :=
  validate_with validate_fields model_validator [] kw.

(** A field annotated with a model class: the nested mapping is validated
    as a record of that class, at the field's location. *)
Definition model_ (R : Type) `{BaseModel R} : Annotation R :=
  {| validate := fun l x =>
       match x with
       | PDict kw => validate_with validate_fields model_validator l kw
       | _ => Err [TypeMismatch l "dict"]
       end |}.

End Pydantic.
Export Pydantic.

Notation "f <$> x" := (fmap f x) (at level 62, left associativity) : py_scope.
Notation "f <*> x" := (ap f x) (at level 62, left associativity) : py_scope.
Local Open Scope py_scope.

(** [len(l)] *)
Definition len {A} (l : list A) : Z := Z.of_nat (List.length l).

(** [None] or a string, as a raw value. *)
Definition dump_optional_str (o : option string) : pyval :=
  match o with
  | Some s => PStr s
  | None => PNone
  end.

(* ================================================================== *)
(** * ex0/space_station.py *)
(* ================================================================== *)

Module ex0.

Record SpaceStation : Type :=
  { station_id : string;
    name : string;
    crew_size : Z;
    power_level : float;
    oxygen_level : float;
    last_maintenance : datetime;
    is_operational : bool;
    notes : option string }.

Section Fields.
Context {conv : Conversions}.

Definition f_station_id := required "station_id" (scalar (str_ (Some 3%nat) (Some 10%nat))).
Definition f_name := required "name" (scalar (str_ (Some 1%nat) (Some 50%nat))).
Definition f_crew_size := required "crew_size" (scalar (int_ (Some 1) (Some 20))).
Definition f_power_level :=
  required "power_level" (scalar (float_ (Some 0%float) (Some 100%float))).
Definition f_oxygen_level :=
  required "oxygen_level" (scalar (float_ (Some 0%float) (Some 100%float))).
Definition f_last_maintenance := required "last_maintenance" (scalar datetime_).
Definition f_is_operational := defaulted "is_operational" (scalar bool_) true.
Definition f_notes :=
  defaulted "notes" (scalar (optional (str_ None (Some 200%nat)))) None.

#[global] Instance SpaceStation_model : BaseModel SpaceStation :=
  {| model_fields :=
       [info f_station_id; info f_name; info f_crew_size; info f_power_level;
        info f_oxygen_level; info f_last_maintenance; info f_is_operational;
        info f_notes];
     validate_fields := fun l kw =>
       Build_SpaceStation
         <$> validate_field f_station_id l kw
         <*> validate_field f_name l kw
         <*> validate_field f_crew_size l kw
         <*> validate_field f_power_level l kw
         <*> validate_field f_oxygen_level l kw
         <*> validate_field f_last_maintenance l kw
         <*> validate_field f_is_operational l kw
         <*> validate_field f_notes l kw;
     model_validator := Return;
     model_dump := fun self =>
       [("station_id", PStr (station_id self));
        ("name", PStr (name self));
        ("crew_size", PInt (crew_size self));
        ("power_level", PFloat (power_level self));
        ("oxygen_level", PFloat (oxygen_level self));
        ("last_maintenance", PDatetime (last_maintenance self));
        ("is_operational", PBool (is_operational self));
        ("notes", dump_optional_str (notes self))] |}.

End Fields.

(** The keyword arguments of the two calls in [main]. *)
Definition main_valid : kwargs :=
  [("station_id", PStr "ISS001");
   ("name", PStr "International Space Station");
   ("crew_size", PInt 6);
   ("power_level", PFloat 85.5%float);
   ("oxygen_level", PFloat 0x1.7133333333333p+6%float);   (* 92.3 *)
   ("last_maintenance", PStr "2026-02-01T10:30:00");
   ("notes", PStr "All systems nominal.")].

Definition main_invalid : kwargs :=
  [("station_id", PStr "BAD01");
   ("name", PStr "Bad Station");
   ("crew_size", PInt 30);
   ("power_level", PFloat 50%float);
   ("oxygen_level", PFloat 50%float);
   ("last_maintenance", PStr "2026-02-01T10:30:00")].

End ex0.

(* ================================================================== *)
(** * ex1/alien_contact.py *)
(* ================================================================== *)

Module ex1.

Inductive ContactType : Type := radio | visual | physical | telepathic.

Definition ContactType_eqb (a b : ContactType) : bool :=
  match a, b with
  | radio, radio | visual, visual | physical, physical
  | telepathic, telepathic => true
  | _, _ => false
  end.

(** The name of a member, which in this class is also its value. *)
Definition ContactType_name (c : ContactType) : string :=
  match c with
  | radio => "radio"
  | visual => "visual"
  | physical => "physical"
  | telepathic => "telepathic"
  end.

Definition ContactType_class : EnumClass ContactType :=
  {| enum_name := "ContactType";
     enum_members :=
       [("radio", "radio", radio); ("visual", "visual", visual);
        ("physical", "physical", physical);
        ("telepathic", "telepathic", telepathic)] |}.

Record AlienContact : Type :=
  { contact_id : string;
    timestamp : datetime;
    location : string;
    contact_type : ContactType;
    signal_strength : float;
    duration_minutes : Z;
    witness_count : Z;
    message_received : option string;
    is_verified : bool }.

Definition msg_contact_id : string :=
  ("Contact ID must start with " ++ dquote ++ "AC" ++ dquote
   ++ " (Alien Contact)")%string.
Definition msg_physical : string := "Physical contact reports must be verified".
Definition msg_telepathic : string :=
  "Telepathic contact requires at least 3 witnesses".
Definition msg_strong_signal : string :=
  "Strong signals (> 7.0) should include received messages".

Definition validate_business_rules (self : AlienContact) : exn AlienContact :=
  raise_if (negb (startswith (contact_id self) "AC")) msg_contact_id ;;
  raise_if (ContactType_eqb (contact_type self) physical
            && negb (is_verified self)) msg_physical ;;
  raise_if (ContactType_eqb (contact_type self) telepathic
            && (witness_count self <? 3)) msg_telepathic ;;
  raise_if (PrimFloat.ltb 7%float (signal_strength self)
            && negb (truthy (message_received self))) msg_strong_signal ;;
  Return self.

Section Fields.
Context {conv : Conversions}.

Definition f_contact_id := required "contact_id" (scalar (str_ (Some 5%nat) (Some 15%nat))).
Definition f_timestamp := required "timestamp" (scalar datetime_).
Definition f_location := required "location" (scalar (str_ (Some 3%nat) (Some 100%nat))).
Definition f_contact_type := required "contact_type" (scalar (enum_ ContactType_class)).
Definition f_signal_strength :=
  required "signal_strength" (scalar (float_ (Some 0%float) (Some 10%float))).
Definition f_duration_minutes :=
  required "duration_minutes" (scalar (int_ (Some 1) (Some 1440))).
Definition f_witness_count := required "witness_count" (scalar (int_ (Some 1) (Some 100))).
Definition f_message_received :=
  defaulted "message_received" (scalar (optional (str_ None (Some 500%nat)))) None.
Definition f_is_verified := defaulted "is_verified" (scalar bool_) false.

#[global] Instance AlienContact_model : BaseModel AlienContact :=
  {| model_fields :=
       [info f_contact_id; info f_timestamp; info f_location;
        info f_contact_type; info f_signal_strength; info f_duration_minutes;
        info f_witness_count; info f_message_received; info f_is_verified];
     validate_fields := fun l kw =>
       Build_AlienContact
         <$> validate_field f_contact_id l kw
         <*> validate_field f_timestamp l kw
         <*> validate_field f_location l kw
         <*> validate_field f_contact_type l kw
         <*> validate_field f_signal_strength l kw
         <*> validate_field f_duration_minutes l kw
         <*> validate_field f_witness_count l kw
         <*> validate_field f_message_received l kw
         <*> validate_field f_is_verified l kw;
     model_validator := validate_business_rules;
     model_dump := fun self =>
       [("contact_id", PStr (contact_id self));
        ("timestamp", PDatetime (timestamp self));
        ("location", PStr (location self));
        ("contact_type", PEnum "ContactType" (ContactType_name (contact_type self)));
        ("signal_strength", PFloat (signal_strength self));
        ("duration_minutes", PInt (duration_minutes self));
        ("witness_count", PInt (witness_count self));
        ("message_received", dump_optional_str (message_received self));
        ("is_verified", PBool (is_verified self))] |}.

End Fields.

Definition print_contact {fmt : Formatting} (title : string)
  (contact : AlienContact) (out : stdout) : stdout :=
  let out := print title out in
  let out := print ("ID: " ++ contact_id contact)%string out in
  let out :=
    print ("Type: " ++ ContactType_name (contact_type contact))%string out in
  let out := print ("Location: " ++ location contact)%string out in
  let out :=
    print ("Signal: " ++ str_of_float (signal_strength contact) ++ "/10")%string
          out in
  let out :=
    print ("Duration: " ++ str_of_int (duration_minutes contact)
           ++ " minutes")%string out in
  let out :=
    print ("Witnesses: " ++ str_of_int (witness_count contact))%string out in
  if truthy (message_received contact)
  then print ("Message: '" ++ str_of_optional (message_received contact)
              ++ "'")%string out
  else out.

(** The keyword arguments of the two calls in [main]. *)
Definition main_valid : kwargs :=
  [("contact_id", PStr "AC_2024_001");
   ("timestamp", PStr "2026-02-06T12:30:00");
   ("location", PStr "Area 51, Nevada");
   ("contact_type", PEnum "ContactType" "radio");
   ("signal_strength", PFloat 8.5%float);
   ("duration_minutes", PInt 45);
   ("witness_count", PInt 5);
   ("message_received", PStr "Greetings from Zeta Reticuli");
   ("is_verified", PBool false)].

Definition main_invalid : kwargs :=
  [("contact_id", PStr "AC_2024_002");
   ("timestamp", PStr "2026-02-06T13:00:00");
   ("location", PStr "Desert Zone");
   ("contact_type", PEnum "ContactType" "telepathic");
   ("signal_strength", PFloat 5%float);
   ("duration_minutes", PInt 30);
   ("witness_count", PInt 1);
   ("is_verified", PBool false)].

End ex1.

(* ================================================================== *)
(** * ex2/space_crew.py *)
(* ================================================================== *)

Module ex2.

Inductive Rank : Type := cadet | officer | lieutenant | captain | commander.

Definition Rank_eqb (a b : Rank) : bool :=
  match a, b with
  | cadet, cadet | officer, officer | lieutenant, lieutenant
  | captain, captain | commander, commander => true
  | _, _ => false
  end.

Definition Rank_name (r : Rank) : string :=
  match r with
  | cadet => "cadet"
  | officer => "officer"
  | lieutenant => "lieutenant"
  | captain => "captain"
  | commander => "commander"
  end.

Definition Rank_class : EnumClass Rank :=
  {| enum_name := "Rank";
     enum_members :=
       [("cadet", "cadet", cadet); ("officer", "officer", officer);
        ("lieutenant", "lieutenant", lieutenant);
        ("captain", "captain", captain);
        ("commander", "commander", commander)] |}.

Record CrewMember : Type :=
  { member_id : string;
    name : string;
    rank : Rank;
    age : Z;
    specialization : string;
    years_experience : Z;
    is_active : bool }.

Record SpaceMission : Type :=
  { mission_id : string;
    mission_name : string;
    destination : string;
    launch_date : datetime;
    duration_days : Z;
    crew : list CrewMember;
    mission_status : string;
    budget_millions : float }.

Definition msg_mission_id : string :=
  ("Mission ID must start with " ++ dquote ++ "M" ++ dquote)%string.
Definition msg_leader : string :=
  "Mission must have at least one Commander or Captain".
Definition msg_experienced : string := "Not enough experienced crew".
Definition msg_active : string := "All crew members must be active".

Definition validate_mission_rules (self : SpaceMission) : exn SpaceMission :=
  raise_if (negb (startswith (mission_id self) "M")) msg_mission_id ;;
  let has_leader :=
    fold_left (fun has_leader member =>
                 if Rank_eqb (rank member) captain
                    || Rank_eqb (rank member) commander
                 then true else has_leader)
              (crew self) false in
  raise_if (negb has_leader) msg_leader ;;
  (if duration_days self >? 365 then
     let exprienced :=
       fold_left (fun exprienced member =>
                    if years_experience member >=? 5
                    then exprienced + 1 else exprienced)
                 (crew self) 0 in
     raise_if (int_lt_float exprienced (truediv (len (crew self)) 2))
              msg_experienced
   else Return tt) ;;
  let all_active :=
    fold_left (fun all_active member =>
                 if negb (is_active member) then false else all_active)
              (crew self) true in
  raise_if (negb all_active) msg_active ;;
  Return self.

Definition dump_CrewMember (self : CrewMember) : kwargs :=
  [("member_id", PStr (member_id self));
   ("name", PStr (name self));
   ("rank", PEnum "Rank" (Rank_name (rank self)));
   ("age", PInt (age self));
   ("specialization", PStr (specialization self));
   ("years_experience", PInt (years_experience self));
   ("is_active", PBool (is_active self))].

Section Fields.
Context {conv : Conversions}.

Definition f_member_id := required "member_id" (scalar (str_ (Some 3%nat) (Some 10%nat))).
Definition f_name := required "name" (scalar (str_ (Some 2%nat) (Some 50%nat))).
Definition f_rank := required "rank" (scalar (enum_ Rank_class)).
Definition f_age := required "age" (scalar (int_ (Some 18) (Some 80))).
Definition f_specialization :=
  required "specialization" (scalar (str_ (Some 3%nat) (Some 30%nat))).
Definition f_years_experience :=
  required "years_experience" (scalar (int_ (Some 0) (Some 50))).
Definition f_is_active := defaulted "is_active" (scalar bool_) true.

#[global] Instance CrewMember_model : BaseModel CrewMember :=
  {| model_fields :=
       [info f_member_id; info f_name; info f_rank; info f_age;
        info f_specialization; info f_years_experience; info f_is_active];
     validate_fields := fun l kw =>
       Build_CrewMember
         <$> validate_field f_member_id l kw
         <*> validate_field f_name l kw
         <*> validate_field f_rank l kw
         <*> validate_field f_age l kw
         <*> validate_field f_specialization l kw
         <*> validate_field f_years_experience l kw
         <*> validate_field f_is_active l kw;
     model_validator := Return;
     model_dump := dump_CrewMember |}.

Definition f_mission_id := required "mission_id" (scalar (str_ (Some 5%nat) (Some 15%nat))).
Definition f_mission_name :=
  required "mission_name" (scalar (str_ (Some 3%nat) (Some 100%nat))).
Definition f_destination :=
  required "destination" (scalar (str_ (Some 3%nat) (Some 50%nat))).
Definition f_launch_date := required "launch_date" (scalar datetime_).
Definition f_duration_days :=
  required "duration_days" (scalar (int_ (Some 1) (Some 3650))).
Definition f_crew :=
  required "crew" (list_ (model_ CrewMember) (Some 1%nat) (Some 12%nat)).
Definition f_mission_status :=
  defaulted "mission_status" (scalar (str_ None None)) "planned".
Definition f_budget_millions :=
  required "budget_millions" (scalar (float_ (Some 1%float) (Some 10000%float))).

#[global] Instance SpaceMission_model : BaseModel SpaceMission :=
  {| model_fields :=
       [info f_mission_id; info f_mission_name; info f_destination;
        info f_launch_date; info f_duration_days; info f_crew;
        info f_mission_status; info f_budget_millions];
     validate_fields := fun l kw =>
       Build_SpaceMission
         <$> validate_field f_mission_id l kw
         <*> validate_field f_mission_name l kw
         <*> validate_field f_destination l kw
         <*> validate_field f_launch_date l kw
         <*> validate_field f_duration_days l kw
         <*> validate_field f_crew l kw
         <*> validate_field f_mission_status l kw
         <*> validate_field f_budget_millions l kw;
     model_validator := validate_mission_rules;
     model_dump := fun self =>
       [("mission_id", PStr (mission_id self));
        ("mission_name", PStr (mission_name self));
        ("destination", PStr (destination self));
        ("launch_date", PDatetime (launch_date self));
        ("duration_days", PInt (duration_days self));
        ("crew", PList (map (fun m => PDict (dump_CrewMember m)) (crew self)));
        ("mission_status", PStr (mission_status self));
        ("budget_millions", PFloat (budget_millions self))] |}.

End Fields.

Definition print_mission {fmt : Formatting} (mission : SpaceMission)
  (out : stdout) : stdout :=
  let out := print "Valid mission created:" out in
  let out := print ("Mission: " ++ mission_name mission)%string out in
  let out := print ("ID: " ++ mission_id mission)%string out in
  let out := print ("Destination: " ++ destination mission)%string out in
  let out :=
    print ("Duration: " ++ str_of_int (duration_days mission) ++ " days")%string
          out in
  let out :=
    print ("Budget: $" ++ str_of_float (budget_millions mission) ++ "M")%string
          out in
  let out :=
    print ("Crew size: " ++ str_of_int (len (crew mission)))%string out in
  let out := print "Crew members:" out in
  fold_left (fun out member =>
               print ("- " ++ name member ++ " (" ++ Rank_name (rank member)
                      ++ ")" ++ "- " ++ specialization member)%string out)
            (crew mission) out.

(** The members and the keyword arguments of the two calls in [main]; each
    [CrewMember(...)] argument is given as the member's own keyword
    arguments, validated before the mission's rules. *)
Definition member (member_id name rank : string) (age : Z)
  (specialization : string) (years_experience : Z) (is_active : bool) : pyval :=
  PDict [("member_id", PStr member_id); ("name", PStr name);
         ("rank", PEnum "Rank" rank); ("age", PInt age);
         ("specialization", PStr specialization);
         ("years_experience", PInt years_experience);
         ("is_active", PBool is_active)].

Definition main_valid : kwargs :=
  [("mission_id", PStr "M2024_MARS");
   ("mission_name", PStr "Mars Colony Establishment");
   ("destination", PStr "Mars");
   ("launch_date", PStr "2026-03-01T09:00:00");
   ("duration_days", PInt 900);
   ("budget_millions", PFloat 2500%float);
   ("crew", PList
      [member "CM001" "Sarah Connor" "commander" 38 "Mission Command" 12 true;
       member "LT002" "John Smith" "lieutenant" 33 "Navigation" 6 true;
       member "OF003" "Alice Johnson" "officer" 29 "Engineering" 5 true])].

Definition main_invalid : kwargs :=
  [("mission_id", PStr "M2026_TEST");
   ("mission_name", PStr "Test Mission");
   ("destination", PStr "Moon");
   ("launch_date", PStr "2026-04-01T10:00:00");
   ("duration_days", PInt 30);
   ("budget_millions", PFloat 100%float);
   ("crew", PList
      [member "CD001" "Test Cadet" "cadet" 22 "Support" 1 true])].

End ex2.

(* ================================================================== *)
(** * The record types of the repository *)
(* ================================================================== *)

Inductive Model : Type :=
| SpaceStationM
| AlienContactM
| CrewMemberM
| SpaceMissionM.

Definition record (m : Model) : Type :=
  match m with
  | SpaceStationM => ex0.SpaceStation
  | AlienContactM => ex1.AlienContact
  | CrewMemberM => ex2.CrewMember
  | SpaceMissionM => ex2.SpaceMission
  end.

Definition base_model {conv : Conversions} (m : Model) : BaseModel (record m) :=
  match m with
  | SpaceStationM => ex0.SpaceStation_model
  | AlienContactM => ex1.AlienContact_model
  | CrewMemberM => ex2.CrewMember_model
  | SpaceMissionM => ex2.SpaceMission_model
  end.

Definition fields_of {conv : Conversions} (m : Model) : list FieldInfo :=
  @model_fields _ (base_model m).

(** The field phase, the whole validation and the dump of a record type. *)
Definition validate_fields_of {conv : Conversions} (m : Model)
  : kwargs -> Result (record m) :=
  @validate_fields _ (base_model m) [].

Definition validate_of {conv : Conversions} (m : Model)
  : kwargs -> Result (record m) :=
  @model_validate _ (base_model m).

Definition dump_of {conv : Conversions} (m : Model) : record m -> kwargs :=
  @model_dump _ (base_model m).

(** The violations of every declared field, in declaration order. *)
Definition accumulated (fields : list FieldInfo) (l : loc) (kw : kwargs)
  : list Violation :=
  flat_map (fun fi => fi_errors fi l kw) fields.

(** The locations of the constraint violations of a report, in the order
    of the report. *)
Fixpoint constraint_locs (errs : list Violation) : list loc :=
  match errs with
  | [] => []
  | ConstraintViolation l _ :: errs' => l :: constraint_locs errs'
  | _ :: errs' => constraint_locs errs'
  end.

(* ================================================================== *)
(** * The declarations as the specification reads them *)
(* ================================================================== *)

(** The field declarations of the four classes as tables, read off the
    class bodies of the sources, and what the specification says of an
    input for such a table: which value each field is coerced to, which
    fields break a declared constraint, and the record a valid input is
    coerced to.  Nothing here uses the validators of the engine; the two
    are compared in the theorems. *)
Module Declared.

(** A declared scalar type with its constraints.  The members of an enum
    class are named by their values. *)
Inductive ftype : Type :=
| TStr (min_length max_length : option nat)
| TInt (ge le : Z)
| TFloat (ge le : float)
| TBool
| TDatetime
| TEnum (cls : string) (values : list string)
| TOptionalStr (max_length : nat).

Record field : Type :=
  { d_name : string;
    d_type : ftype;
    d_default : option pyval }.

(** A declaration: a scalar field, or a list of member records with the
    bounds on its length. *)
Inductive decl : Type :=
| Scalar (f : field)
| Members (name : string) (item : list field) (min_length max_length : nat).

Definition required (name : string) (t : ftype) : field :=
  {| d_name := name; d_type := t; d_default := None |}.

Definition defaulted (name : string) (t : ftype) (v : pyval) : field :=
  {| d_name := name; d_type := t; d_default := Some v |}.

Definition SpaceStation : list field :=
  [required "station_id" (TStr (Some 3%nat) (Some 10%nat));
   required "name" (TStr (Some 1%nat) (Some 50%nat));
   required "crew_size" (TInt 1 20);
   required "power_level" (TFloat 0%float 100%float);
   required "oxygen_level" (TFloat 0%float 100%float);
   required "last_maintenance" TDatetime;
   defaulted "is_operational" TBool (PBool true);
   defaulted "notes" (TOptionalStr 200) PNone].

Definition AlienContact : list field :=
  [required "contact_id" (TStr (Some 5%nat) (Some 15%nat));
   required "timestamp" TDatetime;
   required "location" (TStr (Some 3%nat) (Some 100%nat));
   required "contact_type"
     (TEnum "ContactType" ["radio"; "visual"; "physical"; "telepathic"]);
   required "signal_strength" (TFloat 0%float 10%float);
   required "duration_minutes" (TInt 1 1440);
   required "witness_count" (TInt 1 100);
   defaulted "message_received" (TOptionalStr 500) PNone;
   defaulted "is_verified" TBool (PBool false)].

Definition CrewMember : list field :=
  [required "member_id" (TStr (Some 3%nat) (Some 10%nat));
   required "name" (TStr (Some 2%nat) (Some 50%nat));
   required "rank"
     (TEnum "Rank" ["cadet"; "officer"; "lieutenant"; "captain"; "commander"]);
   required "age" (TInt 18 80);
   required "specialization" (TStr (Some 3%nat) (Some 30%nat));
   required "years_experience" (TInt 0 50);
   defaulted "is_active" TBool (PBool true)].

Definition SpaceMission : list decl :=
  [Scalar (required "mission_id" (TStr (Some 5%nat) (Some 15%nat)));
   Scalar (required "mission_name" (TStr (Some 3%nat) (Some 100%nat)));
   Scalar (required "destination" (TStr (Some 3%nat) (Some 50%nat)));
   Scalar (required "launch_date" TDatetime);
   Scalar (required "duration_days" (TInt 1 3650));
   Members "crew" CrewMember 1 12;
   Scalar (defaulted "mission_status" (TStr None None) (PStr "planned"));
   Scalar (required "budget_millions" (TFloat 1%float 10000%float))].

Definition fields (m : Model) : list decl :=
  match m with
  | SpaceStationM => map Scalar SpaceStation
  | AlienContactM => map Scalar AlienContact
  | CrewMemberM => map Scalar CrewMember
  | SpaceMissionM => SpaceMission
  end.

Section Reading.

Context {conv : Conversions}.

(** Modelled from the spec: the coerced value of a raw value, when it has
    one (step 2 of section 4.1).  A value of the declared type is taken as
    it is, text is parsed, an enum member is looked up by its value, an
    integer is widened to a float. *)
Definition coerced (t : ftype) (x : pyval) : option pyval :=
  match t, x with
  | TStr _ _, PStr s => Some (PStr s)
  | TInt _ _, PInt z => Some (PInt z)
  | TInt _ _, PStr s => option_map PInt (int_of_str s)
  | TFloat _ _, PFloat f => Some (PFloat f)
  | TFloat _ _, PInt z => Some (PFloat (float_of_int z))
  | TFloat _ _, PStr s => option_map PFloat (float_of_str s)
  | TBool, PBool b => Some (PBool b)
  | TDatetime, PDatetime d => Some (PDatetime d)
  | TDatetime, PStr s => option_map PDatetime (datetime_of_str s)
  | TEnum cls values, PEnum c n =>
      if String.eqb c cls && existsb (String.eqb n) values
      then Some (PEnum cls n) else None
  | TEnum cls values, PStr v =>
      if existsb (String.eqb v) values then Some (PEnum cls v) else None
  | TOptionalStr _, PNone => Some PNone
  | TOptionalStr _, PStr s => Some (PStr s)
  | _, _ => None
  end.

Definition outside (lo hi : option nat) (n : nat) : bool :=
  match lo with Some m => (n <? m)%nat | None => false end
  || match hi with Some m => (m <? n)%nat | None => false end.

(** Modelled from the spec: whether a coerced value is outside the
    declared bounds or length (step 3 of section 4.1).  A float is inside
    when [ge <= x] and [x <= le] both hold. *)
Definition breaks (t : ftype) (v : pyval) : bool :=
  match t, v with
  | TStr lo hi, PStr s => outside lo hi (String.length s)
  | TInt ge le, PInt z => (z <? ge) || (le <? z)
  | TFloat ge le, PFloat x => negb (PrimFloat.leb ge x && PrimFloat.leb x le)
  | TOptionalStr hi, PStr s => (hi <? String.length s)%nat
  | _, _ => false
  end.

(** Modelled from the spec: what steps 1 to 3 make of a field.  It is
    missing, its raw value has no coerced value, its coerced value breaks a
    constraint, or it is fine and has the given value. *)
Inductive outcome : Type :=
| Missing
| Mismatch
| Breaks
| Fine (v : pyval).

Definition outcome_of (f : field) (kw : kwargs) : outcome :=
  match get (d_name f) kw with
  | None =>
      match d_default f with
      | Some v => Fine v
      | None => Missing
      end
  | Some x =>
      match coerced (d_type f) x with
      | None => Mismatch
      | Some v => if breaks (d_type f) v then Breaks else Fine v
      end
  end.

(** Modelled from the spec: the record a mapping is coerced to, when
    every field is fine. *)
Fixpoint record_value (fs : list field) (kw : kwargs) : option kwargs :=
  match fs with
  | [] => Some []
  | f :: fs' =>
      match outcome_of f kw, record_value fs' kw with
      | Fine v, Some rest => Some ((d_name f, v) :: rest)
      | _, _ => None
      end
  end.

Definition member_value (item : list field) (x : pyval) : option pyval :=
  match x with
  | PDict kw => option_map PDict (record_value item kw)
  | _ => None
  end.

Fixpoint members_value (item : list field) (xs : list pyval)
  : option (list pyval) :=
  match xs with
  | [] => Some []
  | x :: xs' =>
      match member_value item x, members_value item xs' with
      | Some v, Some vs => Some (v :: vs)
      | _, _ => None
      end
  end.

(** Modelled from the spec: a list of members is coerced member by
    member; its length is a constraint on the coerced list. *)
Definition outcome_of_decl (d : decl) (kw : kwargs) : outcome :=
  match d with
  | Scalar f => outcome_of f kw
  | Members name item lo hi =>
      match get name kw with
      | None => Missing
      | Some (PList xs) =>
          match members_value item xs with
          | None => Mismatch
          | Some vs =>
              if ((List.length vs <? lo) || (hi <? List.length vs))%nat
              then Breaks else Fine (PList vs)
          end
      | Some _ => Mismatch
      end
  end.

Definition decl_name (d : decl) : string :=
  match d with
  | Scalar f => d_name f
  | Members name _ _ _ => name
  end.

(** Modelled from the spec: the record a valid input is coerced to, its
    fields in declaration order, each with its coerced value.  An input is
    valid for the declarations when this record exists. *)
Fixpoint coerced_fields (ds : list decl) (kw : kwargs) : option kwargs :=
  match ds with
  | [] => Some []
  | d :: ds' =>
      match outcome_of_decl d kw, coerced_fields ds' kw with
      | Fine v, Some rest => Some ((decl_name d, v) :: rest)
      | _, _ => None
      end
  end.

Definition coerced_record (m : Model) (kw : kwargs) : option kwargs :=
  coerced_fields (fields m) kw.

(** Modelled from the spec: the offending fields of a mapping, that is
    the locations, below [l], of the fields whose coerced value breaks a
    declared constraint. *)
Definition offending_fields (l : loc) (fs : list field) (kw : kwargs)
  : list loc :=
  flat_map (fun f =>
              match outcome_of f kw with
              | Breaks => [l ++ [Key (d_name f)]]
              | _ => []
              end) fs.

Fixpoint offending_members (l : loc) (item : list field) (i : nat)
  (xs : list pyval) : list loc :=
  match xs with
  | [] => []
  | x :: xs' =>
      match x with
      | PDict kw => offending_fields (l ++ [Index i]) item kw
      | _ => []
      end ++ offending_members l item (S i) xs'
  end.

(** Modelled from the spec: the offending fields of a declaration, that
    is the field itself, and for a list of members the offending fields of
    each member. *)
Definition offending_decl (l : loc) (d : decl) (kw : kwargs) : list loc :=
  match d with
  | Scalar f => offending_fields l [f] kw
  | Members name item _ _ =>
      match get name kw with
      | Some (PList xs) => offending_members (l ++ [Key name]) item 0 xs
      | _ => []
      end
      ++ match outcome_of_decl d kw with
         | Breaks => [l ++ [Key name]]
         | _ => []
         end
  end.

(** Modelled from the spec: the offending fields of an input, in
    declaration order. *)
Definition offending (m : Model) (kw : kwargs) : list loc :=
  flat_map (fun d => offending_decl [] d kw) (fields m).

End Reading.

End Declared.

(* ================================================================== *)
(** * The record-level rules as the specification words them *)
(* ================================================================== *)

(** A rule of the specification: a predicate over a field-valid record and
    the fixed message of its violation.  The lists below give the rules
    of each record type in declaration order; they are compared with the
    rule methods of the sources. *)
Module Spec.

Record RuleSpec (R : Type) : Type :=
  { rule_holds : R -> bool;
    rule_message : string }.
Arguments rule_holds {R} _ _.
Arguments rule_message {R} _.

(** The rules that fail on a record, in declaration order. *)
Definition failing {R} (rules : list (RuleSpec R)) (r : R) : list (RuleSpec R) :=
  filter (fun rule => negb (rule_holds rule r)) rules.

Definition all_hold {R} (rules : list (RuleSpec R)) (r : R) : bool :=
  forallb (fun rule => rule_holds rule r) rules.

(** Rule evaluation as the specification words it: the rules are tried in
    declaration order and the first one that fails gives the violation. *)
Definition run_rules {R} (rules : list (RuleSpec R)) (r : R) : exn R :=
  match failing rules r with
  | [] => Return r
  | rule :: _ => Raise (rule_message rule)
  end.

(** AlienContact: contact-id prefix, physical-verified,
    telepathic-witnesses, strong-signal-message. *)
Definition contact_id_prefix : RuleSpec ex1.AlienContact :=
  {| rule_holds := fun r => String.prefix "AC" (ex1.contact_id r);
     rule_message := ex1.msg_contact_id |}.

Definition physical_verified : RuleSpec ex1.AlienContact :=
  {| rule_holds := fun r =>
       implb (ex1.ContactType_eqb (ex1.contact_type r) ex1.physical)
              (ex1.is_verified r);
     rule_message := ex1.msg_physical |}.

Definition telepathic_witnesses : RuleSpec ex1.AlienContact :=
  {| rule_holds := fun r =>
       implb (ex1.ContactType_eqb (ex1.contact_type r) ex1.telepathic)
              (3 <=? ex1.witness_count r);
     rule_message := ex1.msg_telepathic |}.

Definition strong_signal_message : RuleSpec ex1.AlienContact :=
  {| rule_holds := fun r =>
       implb (PrimFloat.ltb 7%float (ex1.signal_strength r))
              (truthy (ex1.message_received r));
     rule_message := ex1.msg_strong_signal |}.

Definition AlienContact_rules : list (RuleSpec ex1.AlienContact) :=
  [contact_id_prefix; physical_verified; telepathic_witnesses;
   strong_signal_message].

(** SpaceMission: mission-id prefix, leader present, experienced crew, all
    active. *)
Definition is_leader (m : ex2.CrewMember) : bool :=
  match ex2.rank m with
  | ex2.captain | ex2.commander => true
  | _ => false
  end.

Definition is_experienced (m : ex2.CrewMember) : bool :=
  5 <=? ex2.years_experience m.

(** The number of experienced members. *)
Definition experienced_count (crew : list ex2.CrewMember) : Z :=
  len (filter is_experienced crew).

(** [count < size / 2] with the true division of the rationals. *)
Definition below_half (count size : Z) : bool :=
  negb (Qle_bool (inject_Z size / 2) (inject_Z count)).

Definition mission_id_prefix : RuleSpec ex2.SpaceMission :=
  {| rule_holds := fun r => String.prefix "M" (ex2.mission_id r);
     rule_message := ex2.msg_mission_id |}.

Definition leader_present : RuleSpec ex2.SpaceMission :=
  {| rule_holds := fun r => existsb is_leader (ex2.crew r);
     rule_message := ex2.msg_leader |}.

Definition experienced_crew : RuleSpec ex2.SpaceMission :=
  {| rule_holds := fun r =>
       implb (365 <? ex2.duration_days r)
              (negb (below_half (experienced_count (ex2.crew r))
                                (len (ex2.crew r))));
     rule_message := ex2.msg_experienced |}.

Definition all_active : RuleSpec ex2.SpaceMission :=
  {| rule_holds := fun r => forallb ex2.is_active (ex2.crew r);
     rule_message := ex2.msg_active |}.

Definition SpaceMission_rules : list (RuleSpec ex2.SpaceMission) :=
  [mission_id_prefix; leader_present; experienced_crew; all_active].

(** SpaceStation and CrewMember declare no rule. *)
Definition rules (m : Model) : list (RuleSpec (record m)) :=
  match m with
  | SpaceStationM => []
  | AlienContactM => AlienContact_rules
  | CrewMemberM => []
  | SpaceMissionM => SpaceMission_rules
  end.

End Spec.

(* ================================================================== *)
(** * A set of conversions to run the examples with *)
(* ================================================================== *)

Module Sample.

Definition digit (c : ascii) : option Z :=
  let n := nat_of_ascii c in
  if ((48 <=? n) && (n <=? 57))%nat then Some (Z.of_nat n - 48) else None.

Fixpoint digits (acc : Z) (s : string) : option Z :=
  match s with
  | EmptyString => Some acc
  | String c s' =>
      match digit c with
      | Some d => digits (10 * acc + d) s'
      | None => None
      end
  end.

(** An unsigned or negative decimal numeral. *)
Definition decimal (s : string) : option Z :=
  match s with
  | EmptyString => None
  | String "-"%char (String c s') => option_map Z.opp (digits 0 (String c s'))
  | _ => digits 0 s
  end.

Definition between (lo x hi : Z) : bool := (lo <=? x) && (x <=? hi).

(** [YYYY-MM-DDTHH:MM:SS] *)
Definition iso_datetime (s : string) : option datetime :=
  let sep i c := match String.get i s with
                 | Some c' => Ascii.eqb c c'
                 | None => false
                 end in
  if ((String.length s =? 19)%nat
      && sep 4%nat "-"%char && sep 7%nat "-"%char && sep 10%nat "T"%char
      && sep 13%nat ":"%char && sep 16%nat ":"%char)%bool
  then
    match digits 0 (substring 0 4 s), digits 0 (substring 5 2 s),
          digits 0 (substring 8 2 s), digits 0 (substring 11 2 s),
          digits 0 (substring 14 2 s), digits 0 (substring 17 2 s) with
    | Some y, Some mo, Some d, Some h, Some mi, Some se =>
        if (between 1 mo 12 && between 1 d 31 && between 0 h 23
            && between 0 mi 59 && between 0 se 59)%bool
        then Some (mk_datetime y mo d h mi se) else None
    | _, _, _, _, _, _ => None
    end
  else None.

(** Integers are read as decimal numerals, floats as the float of such a
    numeral, timestamps in the ISO form above. *)
Definition conversions : Conversions :=
  {| int_of_str := decimal;
     float_of_str := fun s => option_map float_of_int (decimal s);
     datetime_of_str := iso_datetime |}.

(** The exact decimal expansion of a finite float, with at least one
    digit after the point; it is what the interpreter prints for numbers
    such as 8.5 and 2500.0. *)
Fixpoint zeros (n : nat) : string :=
  match n with
  | O => EmptyString
  | S n' => String "0" (zeros n')
  end.

Fixpoint strip_zeros (fuel : nat) (z : Z) : Z :=
  match fuel with
  | O => z
  | S fuel' => if (z =? 0) || negb (z mod 10 =? 0) then z
               else strip_zeros fuel' (z / 10)
  end.

Definition expansion (x : float) : string :=
  match Prim2SF x with
  | S754_zero s => if s then "-0.0" else "0.0"
  | S754_infinity s => if s then "-inf" else "inf"
  | S754_nan => "nan"
  | S754_finite s m e =>
      let sign := if s then "-" else EmptyString in
      if 0 <=? e
      then (sign ++ str_of_int (Z.pos m * 2 ^ e) ++ ".0")%string
      else
        let d := Z.to_nat (- e) in
        let whole := Z.pos m / 2 ^ (- e) in
        let frac := (Z.pos m mod 2 ^ (- e)) * 5 ^ (- e) in
        let leading := (d - String.length (str_of_int frac))%nat in
        let digits :=
          if frac =? 0 then "0"
          else (zeros leading ++ str_of_int (strip_zeros d frac))%string in
        (sign ++ str_of_int whole ++ "." ++ digits)%string
  end.

Definition formatting : Formatting := {| str_of_float := expansion |}.

End Sample.

(* ================================================================== *)
(** * Notions used in the statements and proofs *)
(* ================================================================== *)

(** A result is a [report] of a list of violations when it is [Ok] and the
    list is empty, or it is [Err] of that list and the list is not empty. *)
Definition report {A} (r : Result A) (errs : list Violation) : Prop :=
  match r with
  | Ok _ => errs = []
  | Err e => e = errs /\ errs <> []
  end.

(** An annotation is [sound] when its validator never returns an empty
    list of violations and reports field-level violations only. *)
Definition sound {A} (a : Annotation A) : Prop :=
  forall l x,
    report (validate a l x) (errors (validate a l x))
    /\ forallb field_level (errors (validate a l x)) = true.

(** A result is a [good] report of a list of violations when it reports
    the list and the list holds field-level violations only. *)
Definition good {A} (r : Result A) (errs : list Violation) : Prop :=
  report r errs /\ forallb field_level errs = true.

(** The field phase of a model is [accumulating] when, at every location
    and on every input, it reports the violations of all declared fields in
    declaration order, and these are field-level violations. *)
Definition accumulating {R} (M : BaseModel R) : Prop :=
  forall l kw, good (validate_fields l kw) (accumulated model_fields l kw).

(** The dump of a crew: the list of the dumps of its members. *)
Definition dump_crew (crew : list ex2.CrewMember) : pyval :=
  PList (map (fun m => PDict (ex2.dump_CrewMember m)) crew).

(** A scalar type of the engine agrees with a declared type, for a given
    way of writing its values as raw values, when both coerce the same raw
    values to the same values and break on the same values. *)
Definition type_agrees {conv : Conversions} {A} (t : FieldType A)
  (dt : Declared.ftype) (canon : A -> pyval) : Prop :=
  (forall x,
      match coerce t x, Declared.coerced dt x with
      | Some a, Some v => v = canon a
      | None, None => True
      | _, _ => False
      end)
  /\ (forall a,
         Declared.breaks dt (canon a)
         = match check t a with Some _ => true | None => false end).

Definition default_agrees {A} (d : option A) (dd : option pyval)
  (canon : A -> pyval) : Prop :=
  match d, dd with
  | Some a, Some v => v = canon a
  | None, None => True
  | _, _ => False
  end.

(** A field of the engine agrees with a declaration when, at every
    location and on every input, the constraint violations it reports are
    at the offending fields of the declaration, and it returns a value
    exactly when the declaration is fine, with the same value. *)
Definition decl_agrees {conv : Conversions} {A} (f : Field A)
  (d : Declared.decl) (canon : A -> pyval) : Prop :=
  forall l kw,
    constraint_locs (errors (validate_field f l kw))
    = Declared.offending_decl l d kw
    /\ match Declared.outcome_of_decl d kw, validate_field f l kw with
       | Declared.Fine v, Ok a => v = canon a
       | Declared.Fine _, Err _ => False
       | _, Ok _ => False
       | _, Err _ => True
       end.

(** The field phase of a record type agrees with its declarations. *)
Definition fields_agree {conv : Conversions} {R} (ds : list Declared.decl)
  (fields : loc -> kwargs -> Result R) (dump : R -> kwargs) : Prop :=
  forall l kw,
    constraint_locs (errors (fields l kw))
    = flat_map (fun d => Declared.offending_decl l d kw) ds
    /\ (forall r, fields l kw = Ok r ->
                  Declared.coerced_fields ds kw = Some (dump r))
    /\ (forall rec, Declared.coerced_fields ds kw = Some rec ->
                    exists r, fields l kw = Ok r /\ dump r = rec).

(** A member as a raw value. *)
Definition dump_member (m : ex2.CrewMember) : pyval :=
  PDict (ex2.dump_CrewMember m).

(* ================================================================== *)
(** * Inputs *)
(* ================================================================== *)

(** Variations of the calls of the three [main] functions. *)
Module Inputs.

Definition conv : Conversions := Sample.conversions.

(** A station with an identifier that is too short, a crew that is too
    large and an oxygen level above the bound. *)
Definition station_three_bad_fields : kwargs :=
  [("station_id", PStr "X");
   ("name", PStr "Bad Station");
   ("crew_size", PInt 30);
   ("power_level", PFloat 50%float);
   ("oxygen_level", PFloat 120.5%float);
   ("last_maintenance", PStr "2026-02-01T10:30:00")].

Definition contact (contact_id contact_type : string) (signal_strength : float)
  (witness_count : Z) (message_received : list (string * pyval))
  (is_verified : bool) : kwargs :=
  [("contact_id", PStr contact_id);
   ("timestamp", PStr "2026-02-06T12:30:00");
   ("location", PStr "Area 51, Nevada");
   ("contact_type", PEnum "ContactType" contact_type);
   ("signal_strength", PFloat signal_strength);
   ("duration_minutes", PInt 45);
   ("witness_count", PInt witness_count)]
  ++ message_received ++ [("is_verified", PBool is_verified)].

(** The record the field phase assembles from [contact]. *)
Definition contact_record (contact_id : string) (contact_type : ex1.ContactType)
  (signal_strength : float) (witness_count : Z)
  (message_received : option string) (is_verified : bool) : ex1.AlienContact :=
  {| ex1.contact_id := contact_id;
     ex1.timestamp := mk_datetime 2026 2 6 12 30 0;
     ex1.location := "Area 51, Nevada";
     ex1.contact_type := contact_type;
     ex1.signal_strength := signal_strength;
     ex1.duration_minutes := 45;
     ex1.witness_count := witness_count;
     ex1.message_received := message_received;
     ex1.is_verified := is_verified |}.

Definition no_message : list (string * pyval) := [].
Definition empty_message : list (string * pyval) :=
  [("message_received", PStr EmptyString)].
Definition greetings : list (string * pyval) :=
  [("message_received", PStr "Greetings from Zeta Reticuli")].

Definition mission (mission_id : string) (duration_days : Z)
  (crew : list pyval) : kwargs :=
  [("mission_id", PStr mission_id);
   ("mission_name", PStr "Mars Colony Establishment");
   ("destination", PStr "Mars");
   ("launch_date", PStr "2026-03-01T09:00:00");
   ("duration_days", PInt duration_days);
   ("budget_millions", PFloat 2500%float);
   ("crew", PList crew)].

(** The record the field phase assembles from [mission]. *)
Definition mission_record (mission_id : string) (duration_days : Z)
  (crew : list ex2.CrewMember) : ex2.SpaceMission :=
  {| ex2.mission_id := mission_id;
     ex2.mission_name := "Mars Colony Establishment";
     ex2.destination := "Mars";
     ex2.launch_date := mk_datetime 2026 3 1 9 0 0;
     ex2.duration_days := duration_days;
     ex2.crew := crew;
     ex2.mission_status := "planned";
     ex2.budget_millions := 2500%float |}.

(** A crew of three of which only the commander is experienced, as raw
    values and as records; and a crew of one cadet. *)
Definition one_of_three : list pyval :=
  [ex2.member "CM001" "Sarah Connor" "commander" 38 "Mission Command" 12 true;
   ex2.member "LT002" "John Smith" "lieutenant" 33 "Navigation" 3 true;
   ex2.member "OF003" "Alice Johnson" "officer" 29 "Engineering" 2 true].

Definition one_of_three_records : list ex2.CrewMember :=
  [ex2.Build_CrewMember "CM001" "Sarah Connor" ex2.commander 38
     "Mission Command" 12 true;
   ex2.Build_CrewMember "LT002" "John Smith" ex2.lieutenant 33
     "Navigation" 3 true;
   ex2.Build_CrewMember "OF003" "Alice Johnson" ex2.officer 29
     "Engineering" 2 true].

Definition one_cadet : list pyval :=
  [ex2.member "CD001" "Test Cadet" "cadet" 22 "Support" 1 true].

(** A crew whose second member has an identifier that is too short and
    an age below the bound. *)
Definition one_too_young : list pyval :=
  [ex2.member "CM001" "Sarah Connor" "commander" 38 "Mission Command" 12 true;
   ex2.member "X" "Kid Cadet" "cadet" 5 "Support" 1 true].

Definition one_cadet_records : list ex2.CrewMember :=
  [ex2.Build_CrewMember "CD001" "Test Cadet" ex2.cadet 22 "Support" 1 true].

(** The records of the first calls of [main] in [ex0] and [ex1]. *)
Definition station_record : ex0.SpaceStation :=
  {| ex0.station_id := "ISS001";
     ex0.name := "International Space Station";
     ex0.crew_size := 6;
     ex0.power_level := 85.5%float;
     ex0.oxygen_level := 0x1.7133333333333p+6%float;
     ex0.last_maintenance := mk_datetime 2026 2 1 10 30 0;
     ex0.is_operational := true;
     ex0.notes := Some "All systems nominal." |}.

(** The records the field phase assembles from the second calls of
    [main] in [ex1] and [ex2]. *)
Definition telepathic_record : ex1.AlienContact :=
  {| ex1.contact_id := "AC_2024_002";
     ex1.timestamp := mk_datetime 2026 2 6 13 0 0;
     ex1.location := "Desert Zone";
     ex1.contact_type := ex1.telepathic;
     ex1.signal_strength := 5%float;
     ex1.duration_minutes := 30;
     ex1.witness_count := 1;
     ex1.message_received := None;
     ex1.is_verified := false |}.

Definition test_mission_record : ex2.SpaceMission :=
  {| ex2.mission_id := "M2026_TEST";
     ex2.mission_name := "Test Mission";
     ex2.destination := "Moon";
     ex2.launch_date := mk_datetime 2026 4 1 10 0 0;
     ex2.duration_days := 30;
     ex2.crew := one_cadet_records;
     ex2.mission_status := "planned";
     ex2.budget_millions := 100%float |}.

Definition main_crew_records : list ex2.CrewMember :=
  [ex2.Build_CrewMember "CM001" "Sarah Connor" ex2.commander 38
     "Mission Command" 12 true;
   ex2.Build_CrewMember "LT002" "John Smith" ex2.lieutenant 33
     "Navigation" 6 true;
   ex2.Build_CrewMember "OF003" "Alice Johnson" ex2.officer 29
     "Engineering" 5 true].

End Inputs.

(* ================================================================== *)
(** * What the declarations say of a record *)
(* ================================================================== *)



(** The fields declared without a default. *)
Definition required_fields (m : Model) : list string :=
  match m with
  | SpaceStationM =>
      ["station_id"; "name"; "crew_size"; "power_level"; "oxygen_level";
       "last_maintenance"]
  | AlienContactM =>
      ["contact_id"; "timestamp"; "location"; "contact_type";
       "signal_strength"; "duration_minutes"; "witness_count"]
  | CrewMemberM =>
      ["member_id"; "name"; "rank"; "age"; "specialization";
       "years_experience"]
  | SpaceMissionM =>
      ["mission_id"; "mission_name"; "destination"; "launch_date";
       "duration_days"; "crew"; "budget_millions"]
  end.

(** The declared defaults: a field that the input leaves out has the
    default of its declaration. *)
Definition defaults_applied (m : Model) (kw : kwargs) : record m -> Prop :=
  match m with
  | SpaceStationM => fun r =>
      (get "is_operational" kw = None -> ex0.is_operational r = true)
      /\ (get "notes" kw = None -> ex0.notes r = None)
  | AlienContactM => fun r =>
      (get "message_received" kw = None -> ex1.message_received r = None)
      /\ (get "is_verified" kw = None -> ex1.is_verified r = false)
  | CrewMemberM => fun r =>
      get "is_active" kw = None -> ex2.is_active r = true
  | SpaceMissionM => fun r =>
      get "mission_status" kw = None -> ex2.mission_status r = "planned"
  end.

(** The lines [print_contact] prints before the message. *)
Definition contact_lines {fmt : Formatting} (title : string)
  (contact : ex1.AlienContact) : list string :=
  [title;
   ("ID: " ++ ex1.contact_id contact)%string;
   ("Type: " ++ ex1.ContactType_name (ex1.contact_type contact))%string;
   ("Location: " ++ ex1.location contact)%string;
   ("Signal: " ++ str_of_float (ex1.signal_strength contact) ++ "/10")%string;
   ("Duration: " ++ str_of_int (ex1.duration_minutes contact)
    ++ " minutes")%string;
   ("Witnesses: " ++ str_of_int (ex1.witness_count contact))%string].

(** The heading [print_mission] prints, and its line for one member. *)
Definition mission_heading {fmt : Formatting} (mission : ex2.SpaceMission)
  : list string :=
  ["Valid mission created:";
   ("Mission: " ++ ex2.mission_name mission)%string;
   ("ID: " ++ ex2.mission_id mission)%string;
   ("Destination: " ++ ex2.destination mission)%string;
   ("Duration: " ++ str_of_int (ex2.duration_days mission) ++ " days")%string;
   ("Budget: $" ++ str_of_float (ex2.budget_millions mission) ++ "M")%string;
   ("Crew size: " ++ str_of_int (len (ex2.crew mission)))%string;
   "Crew members:"].

Definition crew_line (member : ex2.CrewMember) : string :=
  ("- " ++ ex2.name member ++ " (" ++ ex2.Rank_name (ex2.rank member)
   ++ ")- " ++ ex2.specialization member)%string.

(** Further inputs. *)
Module Cases.

Definition fmt : Formatting := Sample.formatting.

(** A station given by its identifier alone. *)
Definition station_id_only : kwargs := [("station_id", PStr "ISS001")].

(** A contact whose type is given by its value, and one whose type is
    not the value of a member. *)
Definition contact_by_value (contact_type : string) : kwargs :=
  [("contact_id", PStr "AC_2024_001");
   ("timestamp", PStr "2026-02-06T12:30:00");
   ("location", PStr "Area 51, Nevada");
   ("contact_type", PStr contact_type);
   ("signal_strength", PFloat 5%float);
   ("duration_minutes", PInt 45);
   ("witness_count", PInt 5)].

(** A member whose rank is given by its value. *)
Definition member_by_value (rank : string) : kwargs :=
  [("member_id", PStr "CM001"); ("name", PStr "Sarah Connor");
   ("rank", PStr rank); ("age", PInt 38);
   ("specialization", PStr "Mission Command");
   ("years_experience", PInt 12)].

(** The crew of [main] with its lieutenant inactive. *)
Definition one_inactive : list pyval :=
  [ex2.member "CM001" "Sarah Connor" "commander" 38 "Mission Command" 12 true;
   ex2.member "LT002" "John Smith" "lieutenant" 33 "Navigation" 6 false;
   ex2.member "OF003" "Alice Johnson" "officer" 29 "Engineering" 5 true].

Definition one_inactive_records : list ex2.CrewMember :=
  [ex2.Build_CrewMember "CM001" "Sarah Connor" ex2.commander 38
     "Mission Command" 12 true;
   ex2.Build_CrewMember "LT002" "John Smith" ex2.lieutenant 33
     "Navigation" 6 false;
   ex2.Build_CrewMember "OF003" "Alice Johnson" ex2.officer 29
     "Engineering" 5 true].

End Cases.

(* ================================================================== *)
(** * Properties of the engine *)
(* ================================================================== *)

Section Results.

Context {A B : Type}.

Lemma errors_fmap (f : A -> B) (x : Result A) : errors (f <$> x) = errors x.
Proof. destruct x; reflexivity. Qed.

Lemma errors_ap (f : Result (A -> B)) (x : Result A) :
  errors (f <*> x) = errors f ++ errors x.
Proof.
  destruct f as [g|e1], x as [a|e2]; simpl; try reflexivity.
  now rewrite app_nil_r.
Qed.

Lemma fmap_Ok_inv (f : A -> B) (x : Result A) (b : B) :
  f <$> x = Ok b -> exists a, x = Ok a /\ b = f a.
Proof. destruct x; simpl; intros H; inversion H; eauto. Qed.

Lemma ap_Ok_inv (f : Result (A -> B)) (x : Result A) (b : B) :
  f <*> x = Ok b -> exists g a, f = Ok g /\ x = Ok a /\ b = g a.
Proof. destruct f, x; simpl; intros H; inversion H; eauto. Qed.

End Results.

Lemma report_errors {A} (r : Result A) errs : report r errs -> errors r = errs.
Proof. destruct r; simpl; intuition congruence. Qed.

Lemma report_fmap {A B} (f : A -> B) (x : Result A) errs :
  report x errs -> report (f <$> x) errs.
Proof. destruct x; simpl; auto. Qed.

Lemma report_ap {A B} (f : Result (A -> B)) (x : Result A) e1 e2 :
  report f e1 -> report x e2 -> report (f <*> x) (e1 ++ e2).
Proof.
  destruct f, x; simpl; intros H1 H2.
  - now subst.
  - destruct H2; subst; simpl; auto.
  - destruct H1; subst. rewrite app_nil_r. auto.
  - destruct H1, H2; subst. split; [reflexivity|].
    intros H; apply app_eq_nil in H. tauto.
Qed.

Lemma report_Err {A} (r : Result A) errs :
  report r errs -> errs <> [] -> r = Err errs.
Proof. destruct r; simpl; intros H Hne; [contradiction | now destruct H; subst]. Qed.

Lemma report_Ok {A} (r : Result A) :
  report r [] -> exists a, r = Ok a.
Proof. destruct r; simpl; [eauto | intros [_ H]; now elim H]. Qed.

Lemma validate_with_Return {R} (fields : loc -> kwargs -> Result R) l kw :
  validate_with fields Return l kw = fields l kw.
Proof. unfold validate_with, run_after. destruct (fields l kw); reflexivity. Qed.

Lemma sound_scalar {A} (t : FieldType A) : sound (scalar t).
Proof.
  intros l x. unfold scalar; simpl.
  destruct (coerce t x) as [a|]; [destruct (check t a)|]; simpl;
    repeat split; congruence.
Qed.

Lemma validate_items_sound {A} (item : Annotation A) :
  sound item ->
  forall xs l i,
    report (validate_items (validate item) l i xs)
           (errors (validate_items (validate item) l i xs))
    /\ forallb field_level
         (errors (validate_items (validate item) l i xs)) = true.
Proof.
  intros Hs; induction xs as [|x xs IH]; intros l i; simpl.
  - auto.
  - destruct (Hs (l ++ [Index i]) x) as [Hr Hf].
    destruct (IH l (S i)) as [Hr' Hf'].
    rewrite errors_ap, errors_fmap. split.
    + apply report_ap; [apply report_fmap|]; assumption.
    + rewrite forallb_app, Hf, Hf'. reflexivity.
Qed.

Lemma sound_list {A} (item : Annotation A) min_length max_length :
  sound item -> sound (list_ item min_length max_length).
Proof.
  intros Hs l x. unfold list_; simpl.
  destruct x; simpl; try (repeat split; congruence).
  destruct (validate_items_sound item Hs l0 l 0%nat) as [Hr Hf].
  destruct (validate_items (validate item) l 0 l0) as [vs|e]; simpl in *.
  - destruct (orelse (check_min_length min_length (List.length vs))
                     (check_max_length max_length (List.length vs))); simpl;
      repeat split; congruence.
  - auto.
Qed.

Lemma sound_field {A} (f : Field A) :
  sound (f_annotation f) ->
  forall l kw,
    report (validate_field f l kw) (fi_errors (info f) l kw)
    /\ forallb field_level (fi_errors (info f) l kw) = true.
Proof.
  intros Hs l kw. simpl. unfold validate_field.
  destruct (get (f_name f) kw) as [x|].
  - apply Hs.
  - destruct (f_default f); simpl; repeat split; congruence.
Qed.

Lemma good_fmap {A B} (f : A -> B) (x : Result A) errs :
  good x errs -> good (f <$> x) errs.
Proof. intros [H1 H2]; split; [now apply report_fmap | assumption]. Qed.

Lemma good_ap {A B} (f : Result (A -> B)) (x : Result A) e1 e2 :
  good f e1 -> good x e2 -> good (f <*> x) (e1 ++ e2).
Proof.
  intros [H1 H2] [H3 H4]; split; [now apply report_ap|].
  now rewrite forallb_app, H2, H4.
Qed.

Lemma good_field {A} (f : Field A) l kw :
  sound (f_annotation f) -> good (validate_field f l kw) (fi_errors (info f) l kw).
Proof. intros Hs; apply sound_field; assumption. Qed.

Lemma good_eq {A} (r : Result A) e e' : good r e -> e = e' -> good r e'.
Proof. now intros H <-. Qed.

Ltac accumulate :=
  eapply good_eq;
  [ repeat (eapply good_ap);
    [ eapply good_fmap; eapply good_field | eapply good_field .. ]
  | cbn [flat_map]; rewrite <- ?app_assoc, ?app_nil_r; reflexivity ].

Section Models.

Context {conv : Conversions}.

Lemma SpaceStation_accumulating : accumulating ex0.SpaceStation_model.
Proof.
  intros l kw. unfold accumulated.
  cbn [model_fields validate_fields ex0.SpaceStation_model].
  accumulate; apply sound_scalar.
Qed.

Lemma AlienContact_accumulating : accumulating ex1.AlienContact_model.
Proof.
  intros l kw. unfold accumulated.
  cbn [model_fields validate_fields ex1.AlienContact_model].
  accumulate; apply sound_scalar.
Qed.

Lemma CrewMember_accumulating : accumulating ex2.CrewMember_model.
Proof.
  intros l kw. unfold accumulated.
  cbn [model_fields validate_fields ex2.CrewMember_model].
  accumulate; apply sound_scalar.
Qed.

(** A nested crew member reports what its own field phase reports: the
    class has no rule method. *)
Lemma sound_CrewMember : sound (model_ ex2.CrewMember).
Proof.
  intros l x. destruct x; try (simpl; repeat split; congruence).
  change (validate (model_ ex2.CrewMember) l (PDict d))
    with (validate_with (@validate_fields _ ex2.CrewMember_model) Return l d).
  rewrite validate_with_Return.
  destruct (CrewMember_accumulating l d) as [Hr Hf].
  rewrite (report_errors _ _ Hr). split; assumption.
Qed.

Lemma SpaceMission_accumulating : accumulating ex2.SpaceMission_model.
Proof.
  intros l kw. unfold accumulated.
  cbn [model_fields validate_fields ex2.SpaceMission_model].
  accumulate; try apply sound_scalar.
  apply sound_list, sound_CrewMember.
Qed.

Lemma repository_accumulating (m : Model) : accumulating (base_model m).
Proof.
  destruct m; simpl.
  - apply SpaceStation_accumulating.
  - apply AlienContact_accumulating.
  - apply CrewMember_accumulating.
  - apply SpaceMission_accumulating.
Qed.

End Models.

(* ================================================================== *)
(** * Field-level violations: gating and accumulation *)
(* ================================================================== *)



(* ================================================================== *)
(** * The engine and the declarations *)
(* ================================================================== *)

Lemma constraint_locs_app (e1 e2 : list Violation) :
  constraint_locs (e1 ++ e2) = constraint_locs e1 ++ constraint_locs e2.
Proof.
  induction e1 as [|v e1 IH]; simpl; [reflexivity|].
  destruct v; simpl; congruence.
Qed.

Section Agreement.

Context {conv : Conversions}.

Lemma str_agrees min_length max_length :
  type_agrees (str_ min_length max_length)
              (Declared.TStr min_length max_length) PStr.
Proof.
  split.
  - intros x. destruct x; simpl; auto.
  - intros s. simpl. unfold Declared.outside, check_min_length, check_max_length.
    destruct min_length as [lo|], max_length as [hi|]; simpl;
      repeat match goal with
             | |- context [(?a <? ?b)%nat] => destruct (a <? b)%nat; simpl
             end; reflexivity.
Qed.

Lemma int_agrees ge le :
  type_agrees (int_ (Some ge) (Some le)) (Declared.TInt ge le) PInt.
Proof.
  split.
  - intros x. destruct x; simpl; auto.
    destruct (int_of_str s); simpl; auto.
  - intros z. simpl. destruct (le <? z), (z <? ge); reflexivity.
Qed.

Lemma float_agrees ge le :
  type_agrees (float_ (Some ge) (Some le)) (Declared.TFloat ge le) PFloat.
Proof.
  split.
  - intros x. destruct x; simpl; auto.
    destruct (float_of_str s); simpl; auto.
  - intros x. simpl.
    destruct (PrimFloat.leb x le), (PrimFloat.leb ge x); reflexivity.
Qed.

Lemma bool_agrees : type_agrees bool_ Declared.TBool PBool.
Proof. split; [intros x; destruct x; simpl; auto | reflexivity]. Qed.

Lemma datetime_agrees : type_agrees datetime_ Declared.TDatetime PDatetime.
Proof.
  split; [|reflexivity].
  intros x. destruct x; simpl; auto.
  destruct (datetime_of_str s); simpl; auto.
Qed.

Lemma optional_str_agrees max_length :
  type_agrees (optional (str_ None (Some max_length)))
              (Declared.TOptionalStr max_length) dump_optional_str.
Proof.
  split.
  - intros x. destruct x; simpl; auto.
  - intros [s|]; simpl; [|reflexivity].
    destruct (max_length <? String.length s)%nat; reflexivity.
Qed.

Lemma ContactType_agrees :
  type_agrees (enum_ ex1.ContactType_class)
    (Declared.TEnum "ContactType" ["radio"; "visual"; "physical"; "telepathic"])
    (fun c => PEnum "ContactType" (ex1.ContactType_name c)).
Proof.
  split; [|reflexivity].
  intros x. destruct x; try (simpl; exact I).
  - cbn [coerce enum_ Declared.coerced existsb member_by_value enum_members
         ex1.ContactType_class].
    rewrite !(String.eqb_sym s).
    destruct (String.eqb_spec "radio" s) as [<-|]; [reflexivity|].
    destruct (String.eqb_spec "visual" s) as [<-|]; [reflexivity|].
    destruct (String.eqb_spec "physical" s) as [<-|]; [reflexivity|].
    destruct (String.eqb_spec "telepathic" s) as [<-|]; [reflexivity|].
    exact I.
  - cbn [coerce enum_ Declared.coerced existsb member_by_name enum_members
         enum_name ex1.ContactType_class].
    destruct (String.eqb cls "ContactType"); [|exact I].
    rewrite !(String.eqb_sym member). cbn [andb].
    destruct (String.eqb_spec "radio" member) as [<-|]; [reflexivity|].
    destruct (String.eqb_spec "visual" member) as [<-|]; [reflexivity|].
    destruct (String.eqb_spec "physical" member) as [<-|]; [reflexivity|].
    destruct (String.eqb_spec "telepathic" member) as [<-|]; [reflexivity|].
    exact I.
Qed.

Lemma Rank_agrees :
  type_agrees (enum_ ex2.Rank_class)
    (Declared.TEnum "Rank"
       ["cadet"; "officer"; "lieutenant"; "captain"; "commander"])
    (fun r => PEnum "Rank" (ex2.Rank_name r)).
Proof.
  split; [|reflexivity].
  intros x. destruct x; try (simpl; exact I).
  - cbn [coerce enum_ Declared.coerced existsb member_by_value enum_members
         ex2.Rank_class].
    rewrite !(String.eqb_sym s).
    destruct (String.eqb_spec "cadet" s) as [<-|]; [reflexivity|].
    destruct (String.eqb_spec "officer" s) as [<-|]; [reflexivity|].
    destruct (String.eqb_spec "lieutenant" s) as [<-|]; [reflexivity|].
    destruct (String.eqb_spec "captain" s) as [<-|]; [reflexivity|].
    destruct (String.eqb_spec "commander" s) as [<-|]; [reflexivity|].
    exact I.
  - cbn [coerce enum_ Declared.coerced existsb member_by_name enum_members
         enum_name ex2.Rank_class].
    destruct (String.eqb cls "Rank"); [|exact I].
    rewrite !(String.eqb_sym member). cbn [andb].
    destruct (String.eqb_spec "cadet" member) as [<-|]; [reflexivity|].
    destruct (String.eqb_spec "officer" member) as [<-|]; [reflexivity|].
    destruct (String.eqb_spec "lieutenant" member) as [<-|]; [reflexivity|].
    destruct (String.eqb_spec "captain" member) as [<-|]; [reflexivity|].
    destruct (String.eqb_spec "commander" member) as [<-|]; [reflexivity|].
    exact I.
Qed.

(** A scalar field agrees with its declaration when the names, the types
    and the defaults do. *)
Lemma scalar_agrees {A} (f : Field A) (d : Declared.field) (t : FieldType A)
  (canon : A -> pyval) :
  f_annotation f = scalar t ->
  f_name f = Declared.d_name d ->
  type_agrees t (Declared.d_type d) canon ->
  default_agrees (f_default f) (Declared.d_default d) canon ->
  decl_agrees f (Declared.Scalar d) canon.
Proof.
  intros Ha Hn [Hc Hb] Hd l kw.
  unfold validate_field, Declared.offending_decl, Declared.offending_fields,
    Declared.outcome_of_decl, Declared.outcome_of.
  cbn [flat_map]. rewrite Ha, <- Hn.
  destruct (get (f_name f) kw) as [x|].
  - cbn [validate scalar]. specialize (Hc x).
    destruct (coerce t x) as [a|], (Declared.coerced (Declared.d_type d) x)
      as [v|]; try contradiction.
    + subst v. rewrite Hb. destruct (check t a); simpl; auto.
    + simpl. auto.
  - unfold default_agrees in Hd.
    destruct (f_default f), (Declared.d_default d); try contradiction;
      simpl; auto.
Qed.

Lemma agrees_Ok {A} (f : Field A) d canon l kw (a : A) :
  decl_agrees f d canon ->
  validate_field f l kw = Ok a ->
  Declared.outcome_of_decl d kw = Declared.Fine (canon a).
Proof.
  intros H E. destruct (H l kw) as [_ H']. rewrite E in H'.
  destruct (Declared.outcome_of_decl d kw); try contradiction. now subst.
Qed.

Lemma agrees_Fine {A} (f : Field A) d canon l kw v :
  decl_agrees f d canon ->
  Declared.outcome_of_decl d kw = Declared.Fine v ->
  exists a : A, validate_field f l kw = Ok a /\ v = canon a.
Proof.
  intros H E. destruct (H l kw) as [_ H']. rewrite E in H'.
  destruct (validate_field f l kw) as [a|]; [eauto | contradiction].
Qed.

Lemma agrees_locs {A} (f : Field A) d canon l kw :
  decl_agrees f d canon ->
  constraint_locs (fi_errors (info f) l kw) = Declared.offending_decl l d kw.
Proof. intros H. exact (proj1 (H l kw)). Qed.

End Agreement.

(* ================================================================== *)
(** * The rule methods and the rules of the specification *)
(* ================================================================== *)

Import Spec.

Lemma run_rules_cons {R} (rule : RuleSpec R) rules r :
  run_rules (rule :: rules) r
  = if rule_holds rule r then
      match run_rules rules r with
      | Return _ => Return r
      | Raise msg => Raise msg
      end
    else Raise (rule_message rule).
Proof.
  unfold run_rules, failing; simpl.
  destruct (rule_holds rule r); simpl; [|reflexivity].
  destruct (filter _ rules); reflexivity.
Qed.

Lemma run_rules_all_hold {R} (rules : list (RuleSpec R)) r :
  all_hold rules r = true -> run_rules rules r = Return r.
Proof.
  unfold run_rules, failing, all_hold. induction rules as [|rule rules IH]; simpl.
  - reflexivity.
  - intros H. apply andb_true_iff in H. destruct H as [H1 H2].
    rewrite H1. simpl. now apply IH.
Qed.

(** [validate_business_rules] tries the four rules of the contact in
    order. *)
Lemma validate_business_rules_refines (self : ex1.AlienContact) :
  ex1.validate_business_rules self = run_rules AlienContact_rules self.
Proof.
  unfold AlienContact_rules. rewrite !run_rules_cons.
  unfold ex1.validate_business_rules, raise_if, startswith, bind; simpl.
  destruct (String.prefix "AC" (ex1.contact_id self)); simpl; [|reflexivity].
  destruct (ex1.ContactType_eqb (ex1.contact_type self) ex1.physical),
    (ex1.is_verified self); simpl; try reflexivity;
  (destruct (ex1.ContactType_eqb (ex1.contact_type self) ex1.telepathic); simpl;
   [ rewrite (Z.leb_antisym (ex1.witness_count self) 3);
     destruct (ex1.witness_count self <? 3); simpl; [reflexivity|] | ];
   destruct (PrimFloat.ltb 7 (ex1.signal_strength self)),
     (truthy (ex1.message_received self)); reflexivity).
Qed.

(** The three loops of [validate_mission_rules]. *)
Lemma has_leader_loop (crew : list ex2.CrewMember) (b : bool) :
  fold_left (fun has_leader member =>
               if ex2.Rank_eqb (ex2.rank member) ex2.captain
                  || ex2.Rank_eqb (ex2.rank member) ex2.commander
               then true else has_leader) crew b
  = b || existsb is_leader crew.
Proof.
  revert b. induction crew as [|m crew IH]; intros b; simpl.
  - now rewrite orb_false_r.
  - rewrite IH. unfold is_leader at 2.
    destruct (ex2.rank m), b; reflexivity.
Qed.

Lemma exprienced_loop (crew : list ex2.CrewMember) (n : Z) :
  fold_left (fun exprienced member =>
               if ex2.years_experience member >=? 5
               then exprienced + 1 else exprienced) crew n
  = n + experienced_count crew.
Proof.
  unfold experienced_count, len.
  revert n. induction crew as [|m crew IH]; intros n; simpl.
  - lia.
  - rewrite IH. unfold is_experienced at 2. rewrite Z.geb_leb.
    destruct (5 <=? ex2.years_experience m); simpl length; lia.
Qed.

Lemma all_active_loop (crew : list ex2.CrewMember) (b : bool) :
  fold_left (fun all_active member =>
               if negb (ex2.is_active member) then false else all_active) crew b
  = b && forallb ex2.is_active crew.
Proof.
  revert b. induction crew as [|m crew IH]; intros b; simpl.
  - now rewrite andb_true_r.
  - rewrite IH. destruct (ex2.is_active m), b; reflexivity.
Qed.

Lemma experienced_count_bounds (crew : list ex2.CrewMember) :
  0 <= experienced_count crew <= len crew.
Proof.
  unfold experienced_count, len. pose proof (filter_length_le is_experienced crew).
  lia.
Qed.

(** On the list sizes a mission can have, the binary64 comparison of the
    rule is the comparison in the rationals. *)
Lemma half_comparison_exact (count size : Z) :
  0 <= count <= 12 -> 0 <= size <= 12 ->
  int_lt_float count (truediv size 2) = below_half count size.
Proof.
  intros Hc Hs.
  assert (forallb (fun s =>
            forallb (fun c =>
              Bool.eqb (int_lt_float (Z.of_nat c) (truediv (Z.of_nat s) 2))
                       (below_half (Z.of_nat c) (Z.of_nat s)))
              (seq 0 13)) (seq 0 13) = true) as H
    by (vm_compute; reflexivity).
  rewrite forallb_forall in H.
  specialize (H (Z.to_nat size)). rewrite in_seq in H.
  assert (0 <= Z.to_nat size < 0 + 13)%nat as Hs' by lia.
  specialize (H Hs'). rewrite forallb_forall in H.
  specialize (H (Z.to_nat count)). rewrite in_seq in H.
  assert (0 <= Z.to_nat count < 0 + 13)%nat as Hc' by lia.
  specialize (H Hc'). rewrite !Z2Nat.id in H by lia.
  now apply eqb_prop in H.
Qed.

(** [validate_mission_rules] tries the four rules of the mission in order,
    on every mission whose crew has at most twelve members. *)
Lemma validate_mission_rules_refines (self : ex2.SpaceMission) :
  (List.length (ex2.crew self) <= 12)%nat ->
  ex2.validate_mission_rules self = run_rules SpaceMission_rules self.
Proof.
  intros Hlen.
  unfold SpaceMission_rules. rewrite !run_rules_cons.
  unfold ex2.validate_mission_rules, raise_if, startswith, bind.
  rewrite has_leader_loop, exprienced_loop, all_active_loop.
  cbn [rule_holds rule_message mission_id_prefix leader_present
       experienced_crew all_active run_rules failing filter orb andb].
  rewrite Z.gtb_ltb, Z.add_0_l.
  pose proof (experienced_count_bounds (ex2.crew self)) as Hb.
  rewrite half_comparison_exact by (unfold len in *; lia).
  destruct (String.prefix "M" (ex2.mission_id self)); simpl; [|reflexivity].
  destruct (existsb is_leader (ex2.crew self)); simpl; [|reflexivity].
  destruct (365 <? ex2.duration_days self); simpl.
  - destruct (below_half _ _); simpl; [reflexivity|].
    destruct (forallb ex2.is_active (ex2.crew self)); reflexivity.
  - destruct (forallb ex2.is_active (ex2.crew self)); reflexivity.
Qed.

(* ================================================================== *)
(** * What a successful field phase says of the record *)
(* ================================================================== *)

Ltac invert_chain H :=
  repeat (apply ap_Ok_inv in H;
          let g := fresh "g" in
          let a := fresh "a" in
          let Ha := fresh "Ha" in
          destruct H as (g & a & H & Ha & ->));
  apply fmap_Ok_inv in H;
  let a := fresh "a" in
  let Ha := fresh "Ha" in
  destruct H as (a & Ha & ->).

(** A validated scalar field holds a value that passes the declared
    constraints, provided the declared default does. *)
Lemma field_check {A} (f : Field A) (t : FieldType A) l kw a :
  f_annotation f = scalar t ->
  (forall d, f_default f = Some d -> check t d = None) ->
  validate_field f l kw = Ok a -> check t a = None.
Proof.
  intros Ht Hd. unfold validate_field. rewrite Ht. simpl.
  destruct (get (f_name f) kw) as [x|].
  - destruct (coerce t x) as [a'|]; [|discriminate].
    destruct (check t a') eqn:E; [discriminate|]. now intros [= <-].
  - destruct (f_default f) as [d|]; [|discriminate].
    intros [= <-]. now apply Hd.
Qed.

(** A raw value that coerces to a value passing the constraints validates
    to that value. *)
Lemma field_accepts {A} (f : Field A) (t : FieldType A) l kw x a :
  f_annotation f = scalar t ->
  get (f_name f) kw = Some x ->
  coerce t x = Some a ->
  check t a = None ->
  validate_field f l kw = Ok a.
Proof.
  intros Ht Hg Hc Hk. unfold validate_field. rewrite Hg, Ht. simpl.
  now rewrite Hc, Hk.
Qed.

Lemma validate_with_Ok_inv {R} (fields : loc -> kwargs -> Result R)
  (after : R -> exn R) l kw r' :
  validate_with fields after l kw = Ok r' ->
  exists r, fields l kw = Ok r /\ after r = Return r'.
Proof.
  unfold validate_with, run_after.
  destruct (fields l kw) as [r|]; [|discriminate].
  destruct (after r) eqn:E; [|discriminate].
  intros [= <-]. eauto.
Qed.

Lemma validate_with_Ok {R} (fields : loc -> kwargs -> Result R)
  (after : R -> exn R) l kw r r' :
  fields l kw = Ok r -> after r = Return r' ->
  validate_with fields after l kw = Ok r'.
Proof. unfold validate_with, run_after. now intros -> ->. Qed.

Lemma validate_with_Raise {R} (fields : loc -> kwargs -> Result R)
  (after : R -> exn R) l kw r msg :
  fields l kw = Ok r -> after r = Raise msg ->
  validate_with fields after l kw = Err [RuleViolation l msg].
Proof. unfold validate_with, run_after. now intros -> ->. Qed.

Ltac check_of H :=
  eapply field_check in H;
  [ | reflexivity | first [ intros ? [= <-]; reflexivity | intros ? [=] ] ].

(** Dumped values coerce back to the values they were dumped from. *)
Lemma coerce_dump_optional_str min_length max_length (o : option string) :
  coerce (optional (str_ min_length max_length)) (dump_optional_str o) = Some o.
Proof. destruct o; reflexivity. Qed.

Lemma coerce_dump_ContactType (c : ex1.ContactType) :
  coerce (enum_ ex1.ContactType_class)
         (PEnum "ContactType" (ex1.ContactType_name c)) = Some c.
Proof. destruct c; reflexivity. Qed.

Lemma coerce_dump_Rank (r : ex2.Rank) :
  coerce (enum_ ex2.Rank_class) (PEnum "Rank" (ex2.Rank_name r)) = Some r.
Proof. destruct r; reflexivity. Qed.

Create HintDb dump discriminated.
#[local] Hint Resolve coerce_dump_optional_str coerce_dump_ContactType
  coerce_dump_Rank : dump.

Ltac accept :=
  eapply field_accepts;
  [ reflexivity | reflexivity
  | first [ reflexivity | solve [auto with dump] ] | try assumption ].

Ltac revalidate l' :=
  repeat match goal with
  | |- context [validate_field ?f l' ?kw'] =>
      let E := fresh "E" in
      assert (validate_field f l' kw' = Ok _) as E by accept;
      rewrite E; clear E
  end.

Section RoundTrip.

Context {conv : Conversions}.

Lemma SpaceStation_fields_roundtrip l kw (r : ex0.SpaceStation) :
  validate_fields l kw = Ok r ->
  forall l', validate_fields l' (model_dump r) = Ok r.
Proof.
  cbn [validate_fields model_dump ex0.SpaceStation_model].
  intros H l'. invert_chain H.
  check_of Ha. check_of Ha0. check_of Ha1. check_of Ha2. check_of Ha3.
  check_of Ha4. check_of Ha5. check_of Ha6.
  cbn [ex0.station_id ex0.name ex0.crew_size ex0.power_level
       ex0.oxygen_level ex0.last_maintenance ex0.is_operational ex0.notes].
  revalidate l'. reflexivity.
Qed.

Lemma AlienContact_fields_roundtrip l kw (r : ex1.AlienContact) :
  validate_fields l kw = Ok r ->
  forall l', validate_fields l' (model_dump r) = Ok r.
Proof.
  cbn [validate_fields model_dump ex1.AlienContact_model].
  intros H l'. invert_chain H.
  check_of Ha. check_of Ha0. check_of Ha1. check_of Ha2. check_of Ha3.
  check_of Ha4. check_of Ha5. check_of Ha6. check_of Ha7.
  cbn [ex1.contact_id ex1.timestamp ex1.location ex1.contact_type
       ex1.signal_strength ex1.duration_minutes ex1.witness_count
       ex1.message_received ex1.is_verified].
  revalidate l'. reflexivity.
Qed.

Lemma CrewMember_fields_roundtrip l kw (r : ex2.CrewMember) :
  validate_fields l kw = Ok r ->
  forall l', validate_fields l' (ex2.dump_CrewMember r) = Ok r.
Proof.
  cbn [validate_fields ex2.CrewMember_model]. unfold ex2.dump_CrewMember.
  intros H l'. invert_chain H.
  check_of Ha. check_of Ha0. check_of Ha1. check_of Ha2. check_of Ha3.
  check_of Ha4. check_of Ha5.
  cbn [ex2.member_id ex2.name ex2.rank ex2.age ex2.specialization
       ex2.years_experience ex2.is_active].
  revalidate l'. reflexivity.
Qed.

Lemma crew_items_roundtrip xs :
  forall l i vs,
    validate_items (validate (model_ ex2.CrewMember)) l i xs = Ok vs ->
    forall l' i',
      validate_items (validate (model_ ex2.CrewMember)) l' i'
        (map (fun m => PDict (ex2.dump_CrewMember m)) vs) = Ok vs.
Proof.
  induction xs as [|x xs IH]; cbn [validate_items]; intros l i vs H l' i'.
  - now inversion H.
  - apply ap_Ok_inv in H. destruct H as (g & vs' & Hg & Hvs & ->).
    apply fmap_Ok_inv in Hg. destruct Hg as (a & Ha & ->).
    destruct x; try discriminate Ha.
    change (validate (model_ ex2.CrewMember) (l ++ [Index i]) (PDict d))
      with (validate_with (@validate_fields _ ex2.CrewMember_model) Return
              (l ++ [Index i]) d) in Ha.
    rewrite validate_with_Return in Ha.
    cbn [map validate_items].
    change (validate (model_ ex2.CrewMember) (l' ++ [Index i'])
              (PDict (ex2.dump_CrewMember a)))
      with (validate_with (@validate_fields _ ex2.CrewMember_model) Return
              (l' ++ [Index i']) (ex2.dump_CrewMember a)).
    rewrite validate_with_Return.
    rewrite (CrewMember_fields_roundtrip _ _ _ Ha).
    rewrite (IH _ _ _ Hvs). reflexivity.
Qed.

Lemma list_Ok_inv {A} (item : Annotation A) min_length max_length l x vs :
  validate (list_ item min_length max_length) l x = Ok vs ->
  exists xs,
    x = PList xs
    /\ validate_items (validate item) l 0 xs = Ok vs
    /\ check_min_length min_length (List.length vs) = None
    /\ check_max_length max_length (List.length vs) = None.
Proof.
  simpl. destruct x; try discriminate.
  destruct (validate_items (validate item) l 0 l0) as [vs'|] eqn:Ei;
    [|discriminate].
  destruct (check_min_length min_length (List.length vs')) eqn:Emin;
    [discriminate|].
  destruct (check_max_length max_length (List.length vs')) eqn:Emax;
    [discriminate|].
  simpl. intros [= <-]. exists l0. auto.
Qed.

Lemma list_Ok {A} (item : Annotation A) min_length max_length l xs vs :
  validate_items (validate item) l 0 xs = Ok vs ->
  check_min_length min_length (List.length vs) = None ->
  check_max_length max_length (List.length vs) = None ->
  validate (list_ item min_length max_length) l (PList xs) = Ok vs.
Proof. simpl. now intros -> -> ->. Qed.

(** A validated crew has between one and twelve members, each of which
    validates again from its dump. *)
Lemma crew_field_Ok l kw (c : list ex2.CrewMember) :
  validate_field ex2.f_crew l kw = Ok c ->
  (1 <= List.length c <= 12)%nat
  /\ forall l' i',
       validate_items (validate (model_ ex2.CrewMember)) l' i'
         (map (fun m => PDict (ex2.dump_CrewMember m)) c) = Ok c.
Proof.
  unfold validate_field. cbn [f_name f_annotation f_default ex2.f_crew required].
  destruct (get "crew" kw) as [x|]; [|discriminate].
  intros H. apply list_Ok_inv in H.
  destruct H as (xs & -> & Ei & Emin & Emax).
  unfold check_min_length in Emin. unfold check_max_length in Emax.
  destruct (Nat.ltb_spec (List.length c) 1); [discriminate|].
  destruct (Nat.ltb_spec 12 (List.length c)); [discriminate|].
  split; [lia|]. intros l' i'. eapply crew_items_roundtrip; eassumption.
Qed.

Lemma crew_field_accepts l kw (c : list ex2.CrewMember) :
  get "crew" kw = Some (dump_crew c) ->
  (1 <= List.length c <= 12)%nat ->
  (forall l' i',
     validate_items (validate (model_ ex2.CrewMember)) l' i'
       (map (fun m => PDict (ex2.dump_CrewMember m)) c) = Ok c) ->
  validate_field ex2.f_crew l kw = Ok c.
Proof.
  intros Hg Hlen Hitems. unfold validate_field.
  cbn [f_name f_annotation f_default ex2.f_crew required]. rewrite Hg.
  unfold dump_crew. apply list_Ok; [apply Hitems | |].
  - unfold check_min_length.
    destruct (Nat.ltb_spec (List.length c) 1); [lia | reflexivity].
  - unfold check_max_length.
    destruct (Nat.ltb_spec 12 (List.length c)); [lia | reflexivity].
Qed.

Lemma SpaceMission_fields_Ok_crew l kw (r : ex2.SpaceMission) :
  validate_fields l kw = Ok r -> (1 <= List.length (ex2.crew r) <= 12)%nat.
Proof.
  cbn [validate_fields ex2.SpaceMission_model].
  intros H. invert_chain H. simpl. now apply crew_field_Ok in Ha1.
Qed.

Lemma SpaceMission_fields_roundtrip l kw (r : ex2.SpaceMission) :
  validate_fields l kw = Ok r ->
  forall l', validate_fields l' (model_dump r) = Ok r.
Proof.
  cbn [validate_fields model_dump ex2.SpaceMission_model].
  intros H l'. invert_chain H.
  apply crew_field_Ok in Ha1. destruct Ha1 as [Hlen Hitems].
  check_of Ha. check_of Ha0. check_of Ha2. check_of Ha3.
  check_of Ha4. check_of Ha5. check_of Ha6.
  cbn [ex2.mission_id ex2.mission_name ex2.destination ex2.launch_date
       ex2.duration_days ex2.crew ex2.mission_status ex2.budget_millions].
  fold (dump_crew a1).
  match goal with
  | |- context [validate_field ex2.f_crew l' ?kw'] =>
      rewrite (crew_field_accepts l' kw' a1 eq_refl Hlen Hitems)
  end.
  revalidate l'. reflexivity.
Qed.

End RoundTrip.

(* ================================================================== *)
(** * The field phase and the declarations *)
(* ================================================================== *)

Lemma coerced_fields_cons_inv {conv : Conversions} d ds kw rec :
  Declared.coerced_fields (d :: ds) kw = Some rec ->
  exists v rest,
    Declared.outcome_of_decl d kw = Declared.Fine v
    /\ Declared.coerced_fields ds kw = Some rest
    /\ rec = (Declared.decl_name d, v) :: rest.
Proof.
  cbn [Declared.coerced_fields].
  destruct (Declared.outcome_of_decl d kw) as [| | |v]; try discriminate.
  destruct (Declared.coerced_fields ds kw) as [rest|]; [|discriminate].
  intros [= <-]. eauto.
Qed.

Lemma record_value_coerced_fields {conv : Conversions} fs kw :
  Declared.record_value fs kw
  = Declared.coerced_fields (map Declared.Scalar fs) kw.
Proof.
  induction fs as [|f fs IH]; [reflexivity|].
  cbn [map Declared.record_value Declared.coerced_fields
       Declared.outcome_of_decl Declared.decl_name].
  now rewrite IH.
Qed.

Lemma offending_fields_decls {conv : Conversions} l fs kw :
  Declared.offending_fields l fs kw
  = flat_map (fun d => Declared.offending_decl l d kw)
             (map Declared.Scalar fs).
Proof.
  unfold Declared.offending_fields.
  induction fs as [|f fs IH]; [reflexivity|].
  cbn [map flat_map Declared.offending_decl]. rewrite IH.
  unfold Declared.offending_fields. cbn [flat_map].
  now rewrite app_nil_r.
Qed.

(** The constraint violations accumulated over fields that agree with
    their declarations are at the offending fields of the declarations. *)
Lemma accumulated_locs {conv : Conversions} fis ds :
  Forall2 (fun fi d =>
             forall l kw,
               constraint_locs (fi_errors fi l kw)
               = Declared.offending_decl l d kw) fis ds ->
  forall l kw,
    constraint_locs (accumulated fis l kw)
    = flat_map (fun d => Declared.offending_decl l d kw) ds.
Proof.
  unfold accumulated.
  induction 1 as [|fi d fis ds H _ IH]; intros l kw; [reflexivity|].
  cbn [flat_map]. now rewrite constraint_locs_app, H, IH.
Qed.

Ltac type_agree :=
  first [ apply str_agrees | apply int_agrees | apply float_agrees
        | apply bool_agrees | apply datetime_agrees
        | apply ContactType_agrees | apply Rank_agrees
        | apply optional_str_agrees ].

Ltac scalar_agree :=
  eapply scalar_agrees;
  [ reflexivity | reflexivity | type_agree | reflexivity ].

Ltac locs_agree tac :=
  repeat (apply Forall2_cons; [intros ? ?; eapply agrees_locs; tac|]);
  apply Forall2_nil.

(** From the values of the fields to the declarations. *)
Ltac fine_of_Ok tac :=
  repeat match goal with
  | Ha : validate_field ?f ?l ?kw = Ok ?a
    |- context [Declared.outcome_of_decl ?d ?kw] =>
      let H := fresh in
      eassert (H : decl_agrees f d _) by tac;
      rewrite (agrees_Ok f d _ l kw a H Ha); clear H Ha
  end.

(** From the declarations to the values of the fields. *)
Ltac invert_coerced H :=
  repeat (apply coerced_fields_cons_inv in H;
          let v := fresh "v" in
          let rest := fresh "rest" in
          let Hv := fresh "Hv" in
          destruct H as (v & rest & Hv & H & ->));
  cbn [Declared.coerced_fields] in H; injection H as <-.

Ltac Ok_of_fine tac l :=
  repeat match goal with
  | H : Declared.outcome_of_decl ?d ?kw = Declared.Fine ?v
    |- context [validate_field ?f l ?kw] =>
      let Hd := fresh in
      eassert (Hd : decl_agrees f d _) by tac;
      let a := fresh "a" in
      let E := fresh "E" in
      destruct (agrees_Fine f d _ l kw v Hd H) as (a & E & ->);
      rewrite E; clear Hd E H
  end.

Section FieldsAgree.

Context {conv : Conversions}.

Lemma SpaceStation_agrees :
  fields_agree (map Declared.Scalar Declared.SpaceStation)
               (@validate_fields _ ex0.SpaceStation_model)
               (@model_dump _ ex0.SpaceStation_model).
Proof.
  intros l kw. split; [|split].
  - rewrite (report_errors _ _ (proj1 (SpaceStation_accumulating l kw))).
    apply accumulated_locs.
    cbn [model_fields ex0.SpaceStation_model map Declared.SpaceStation].
    locs_agree scalar_agree.
  - cbn [validate_fields model_dump ex0.SpaceStation_model].
    intros r H. invert_chain H.
    unfold Declared.SpaceStation. cbn [map Declared.coerced_fields].
    fine_of_Ok scalar_agree. reflexivity.
  - cbn [validate_fields model_dump ex0.SpaceStation_model].
    unfold Declared.SpaceStation. cbn [map].
    intros rec H. invert_coerced H.
    Ok_of_fine scalar_agree l.
    eexists; split; reflexivity.
Qed.

Lemma AlienContact_agrees :
  fields_agree (map Declared.Scalar Declared.AlienContact)
               (@validate_fields _ ex1.AlienContact_model)
               (@model_dump _ ex1.AlienContact_model).
Proof.
  intros l kw. split; [|split].
  - rewrite (report_errors _ _ (proj1 (AlienContact_accumulating l kw))).
    apply accumulated_locs.
    cbn [model_fields ex1.AlienContact_model map Declared.AlienContact].
    locs_agree scalar_agree.
  - cbn [validate_fields model_dump ex1.AlienContact_model].
    intros r H. invert_chain H.
    unfold Declared.AlienContact. cbn [map Declared.coerced_fields].
    fine_of_Ok scalar_agree. reflexivity.
  - cbn [validate_fields model_dump ex1.AlienContact_model].
    unfold Declared.AlienContact. cbn [map].
    intros rec H. invert_coerced H.
    Ok_of_fine scalar_agree l.
    eexists; split; reflexivity.
Qed.

Lemma CrewMember_agrees :
  fields_agree (map Declared.Scalar Declared.CrewMember)
               (@validate_fields _ ex2.CrewMember_model)
               ex2.dump_CrewMember.
Proof.
  intros l kw. split; [|split].
  - rewrite (report_errors _ _ (proj1 (CrewMember_accumulating l kw))).
    apply accumulated_locs.
    cbn [model_fields ex2.CrewMember_model map Declared.CrewMember].
    locs_agree scalar_agree.
  - cbn [validate_fields ex2.CrewMember_model]. unfold ex2.dump_CrewMember.
    intros r H. invert_chain H.
    unfold Declared.CrewMember. cbn [map Declared.coerced_fields].
    fine_of_Ok scalar_agree. reflexivity.
  - cbn [validate_fields ex2.CrewMember_model]. unfold ex2.dump_CrewMember.
    unfold Declared.CrewMember. cbn [map].
    intros rec H. invert_coerced H.
    Ok_of_fine scalar_agree l.
    eexists; split; reflexivity.
Qed.

(** A member of the crew: the nested mapping is read as a record of the
    member class. *)
Lemma member_agrees l x :
  constraint_locs (errors (validate (model_ ex2.CrewMember) l x))
  = match x with
    | PDict kw => Declared.offending_fields l Declared.CrewMember kw
    | _ => []
    end
  /\ match Declared.member_value Declared.CrewMember x,
           validate (model_ ex2.CrewMember) l x with
     | Some v, Ok m => v = dump_member m
     | None, Err _ => True
     | _, _ => False
     end.
Proof.
  destruct x; try (simpl; auto; fail).
  change (validate (model_ ex2.CrewMember) l (PDict d))
    with (validate_with (@validate_fields _ ex2.CrewMember_model) Return l d).
  rewrite validate_with_Return.
  cbn [Declared.member_value].
  rewrite offending_fields_decls, record_value_coerced_fields.
  destruct (CrewMember_agrees l d) as (Hl & Hok & Hfine).
  split; [exact Hl|].
  destruct (@validate_fields _ ex2.CrewMember_model l d) as [m|e].
  - rewrite (Hok m eq_refl). reflexivity.
  - destruct (Declared.coerced_fields (map Declared.Scalar Declared.CrewMember) d)
      as [rec|]; [|exact I].
    destruct (Hfine rec eq_refl) as (r & Hr & _). discriminate Hr.
Qed.

Lemma members_agree xs :
  forall l i,
    constraint_locs
      (errors (validate_items (validate (model_ ex2.CrewMember)) l i xs))
    = Declared.offending_members l Declared.CrewMember i xs
    /\ match Declared.members_value Declared.CrewMember xs,
             validate_items (validate (model_ ex2.CrewMember)) l i xs with
       | Some vs, Ok c => vs = map dump_member c
       | None, Err _ => True
       | _, _ => False
       end.
Proof.
  induction xs as [|x xs IH]; intros l i.
  - simpl. auto.
  - cbn [validate_items Declared.offending_members Declared.members_value].
    destruct (IH l (S i)) as [IHl IHv].
    destruct (member_agrees (l ++ [Index i]) x) as [Hl Hv].
    rewrite errors_ap, errors_fmap, constraint_locs_app, IHl, Hl.
    split.
    + destruct x; reflexivity.
    + destruct (Declared.member_value Declared.CrewMember x) as [v|],
        (validate (model_ ex2.CrewMember) (l ++ [Index i]) x) as [m|e];
        try contradiction;
        destruct (Declared.members_value Declared.CrewMember xs) as [vs|],
          (validate_items (validate (model_ ex2.CrewMember)) l (S i) xs)
          as [c|e'];
        try contradiction; simpl; try exact I.
      now subst.
Qed.

(** The crew of a mission agrees with its declaration. *)
Lemma crew_agrees :
  decl_agrees ex2.f_crew (Declared.Members "crew" Declared.CrewMember 1 12)
              dump_crew.
Proof.
  intros l kw. unfold validate_field.
  cbn [f_name f_annotation f_default ex2.f_crew required
       Declared.offending_decl Declared.outcome_of_decl].
  destruct (get "crew" kw) as [x|]; [|simpl; auto].
  destruct x; try (simpl; auto; fail).
  cbn [validate list_].
  destruct (members_agree l0 (l ++ [Key "crew"]) 0%nat) as [Hl Hv].
  rewrite <- Hl.
  destruct (Declared.members_value Declared.CrewMember l0) as [vs|],
    (validate_items (validate (model_ ex2.CrewMember)) (l ++ [Key "crew"]) 0 l0)
    as [c|e]; try contradiction.
  - subst vs. rewrite length_map.
    unfold check_min_length, check_max_length.
    destruct (List.length c <? 1)%nat, (12 <? List.length c)%nat; simpl; auto.
  - simpl. rewrite app_nil_r. auto.
Qed.

Ltac field_agree := first [ apply crew_agrees | scalar_agree ].

Lemma SpaceMission_agrees :
  fields_agree Declared.SpaceMission
               (@validate_fields _ ex2.SpaceMission_model)
               (@model_dump _ ex2.SpaceMission_model).
Proof.
  intros l kw. split; [|split].
  - rewrite (report_errors _ _ (proj1 (SpaceMission_accumulating l kw))).
    apply accumulated_locs.
    cbn [model_fields ex2.SpaceMission_model Declared.SpaceMission].
    locs_agree field_agree.
  - cbn [validate_fields model_dump ex2.SpaceMission_model].
    intros r H. invert_chain H.
    unfold Declared.SpaceMission. cbn [Declared.coerced_fields].
    fine_of_Ok field_agree. reflexivity.
  - cbn [validate_fields model_dump ex2.SpaceMission_model].
    unfold Declared.SpaceMission.
    intros rec H. invert_coerced H.
    Ok_of_fine field_agree l.
    eexists; split; reflexivity.
Qed.

(** The field phase of every record type of the repository agrees with
    the declarations of the type. *)
Lemma repository_agrees (m : Model) :
  fields_agree (Declared.fields m) (@validate_fields _ (base_model m))
               (dump_of m).
Proof.
  destruct m.
  - exact SpaceStation_agrees.
  - exact AlienContact_agrees.
  - exact CrewMember_agrees.
  - exact SpaceMission_agrees.
Qed.

End FieldsAgree.

(** C4: on an input with two or more offending fields, validation returns
    an error; the error holds the violations accumulated over all declared
    fields, all of them field-level, and its constraint violations are at
    the offending fields, one for each of them, in declaration order.  The
    offending fields are those the declarations single out, the fields of
    the members of a crew included. *)
Theorem C4_offending_fields_all_reported :
  forall (conv : Conversions) (m : Model) (kw : kwargs),
    (2 <= List.length (Declared.offending m kw))%nat ->
    exists errs,
      validate_of m kw = Err errs
      /\ errs = accumulated (fields_of m) [] kw
      /\ forallb field_level errs = true
      /\ constraint_locs errs = Declared.offending m kw.
Proof.
  intros conv m kw H.
  destruct (repository_accumulating m [] kw) as [Hr Hf].
  destruct (repository_agrees m [] kw) as (Hl & _).
  rewrite (report_errors _ _ Hr) in Hl.
  fold (Declared.offending m kw) in Hl.
  assert (@accumulated (@model_fields _ (base_model m)) [] kw <> []) as Hne.
  { intros E. rewrite E in Hl. simpl in Hl. rewrite <- Hl in H.
    simpl in H. lia. }
  exists (accumulated (fields_of m) [] kw).
  unfold validate_of, model_validate, validate_with, fields_of.
  rewrite (report_Err _ _ Hr Hne). auto.
Qed.

(* ================================================================== *)
(** * Record-level rules *)
(* ================================================================== *)

Lemma run_rules_Return {R} (rules : list (RuleSpec R)) r r' :
  run_rules rules r = Return r' -> r' = r.
Proof. unfold run_rules. destruct (failing rules r); congruence. Qed.

Lemma run_rules_failing {R} (rules : list (RuleSpec R)) r first rest :
  failing rules r = first :: rest ->
  run_rules rules r = Raise (rule_message first).
Proof. unfold run_rules. now intros ->. Qed.

(** On a field-valid record, the rule method of every record type of the
    repository tries the rules of the type in declaration order. *)
Lemma model_validator_refines {conv : Conversions} (m : Model) kw (r : record m) :
  validate_fields_of m kw = Ok r ->
  @model_validator _ (base_model m) r = run_rules (rules m) r.
Proof.
  destruct m; simpl; intros H.
  - reflexivity.
  - apply validate_business_rules_refines.
  - reflexivity.
  - apply validate_mission_rules_refines.
    apply SpaceMission_fields_Ok_crew in H. lia.
Qed.

(** C1: on an input whose fields are all valid and on which two or more
    rules fail, the result is an error holding exactly one rule violation,
    that of the first failing rule in declaration order. *)
Theorem C1_first_failing_rule_only :
  forall (conv : Conversions) (m : Model) (kw : kwargs) (r : record m)
         (first second : RuleSpec (record m)) (rest : list (RuleSpec (record m))),
    validate_fields_of m kw = Ok r ->
    failing (rules m) r = first :: second :: rest ->
    validate_of m kw = Err [RuleViolation [] (rule_message first)].
Proof.
  intros conv m kw r first second rest Hf Hfail.
  unfold validate_of, model_validate.
  eapply validate_with_Raise; [exact Hf|].
  rewrite (model_validator_refines m kw r Hf).
  eapply run_rules_failing; eassumption.
Qed.

(** C7: a record that validation returned validates again from its dump,
    to the same record. *)
Theorem C7_revalidation_idempotent :
  forall (conv : Conversions) (m : Model) (kw : kwargs) (r : record m),
    validate_of m kw = Ok r ->
    validate_of m (dump_of m r) = Ok r.
Proof.
  intros conv m kw r H.
  unfold validate_of, model_validate in H.
  apply validate_with_Ok_inv in H. destruct H as (r0 & Hf & Ha).
  pose proof Ha as Hr.
  rewrite (model_validator_refines m kw r0 Hf) in Hr.
  apply run_rules_Return in Hr. subst r0.
  unfold validate_of, model_validate, dump_of.
  eapply validate_with_Ok; [|exact Ha].
  destruct m.
  - exact (SpaceStation_fields_roundtrip _ _ _ Hf []).
  - exact (AlienContact_fields_roundtrip _ _ _ Hf []).
  - exact (CrewMember_fields_roundtrip _ _ _ Hf []).
  - exact (SpaceMission_fields_roundtrip _ _ _ Hf []).
Qed.

(* ================================================================== *)
(** * Valid inputs *)
(* ================================================================== *)

(** C6: an input that the declarations read as valid, every field present
    or defaulted, coerced and within its constraints, gives in the field
    phase a record whose fields are exactly the coerced values of the
    input; when every rule of the record type holds of that record,
    validation returns it. *)
Theorem C6_valid_input_gives_record :
  forall (conv : Conversions) (m : Model) (kw rec : kwargs),
    Declared.coerced_record m kw = Some rec ->
    exists r : record m,
      dump_of m r = rec
      /\ validate_fields_of m kw = Ok r
      /\ (all_hold (rules m) r = true -> validate_of m kw = Ok r).
Proof.
  intros conv m kw rec H.
  destruct (repository_agrees m [] kw) as (_ & _ & Hfine).
  destruct (Hfine rec H) as (r & Hf & Hd).
  exists r. repeat split; [exact Hd | exact Hf |].
  intros Hr. unfold validate_of, model_validate.
  eapply validate_with_Ok; [exact Hf|].
  rewrite (model_validator_refines m kw r Hf).
  now apply run_rules_all_hold.
Qed.

(* ================================================================== *)
(** * The single rules *)
(* ================================================================== *)

(** The result of a validation whose field phase succeeded. *)
Lemma validate_of_rules {conv : Conversions} (m : Model) kw (r : record m) :
  validate_fields_of m kw = Ok r ->
  validate_of m kw
  = match failing (rules m) r with
    | [] => Ok r
    | rule :: _ => Err [RuleViolation [] (rule_message rule)]
    end.
Proof.
  intros Hf. unfold validate_of, model_validate, validate_with.
  unfold validate_fields_of in Hf. rewrite Hf. unfold run_after.
  fold (validate_fields_of m kw) in Hf.
  rewrite (model_validator_refines m kw r Hf). unfold run_rules.
  destruct (failing (rules m) r); reflexivity.
Qed.

Lemma fields_Ok_accumulated {conv : Conversions} (m : Model) kw (r : record m) :
  validate_fields_of m kw = Ok r -> accumulated (fields_of m) [] kw = [].
Proof.
  intros Hf. destruct (repository_accumulating m [] kw) as [Hr _].
  unfold validate_fields_of in Hf. rewrite Hf in Hr. exact Hr.
Qed.

Lemma failing_cons {R} (rule : RuleSpec R) rules r :
  failing (rule :: rules) r
  = if rule_holds rule r then failing rules r else rule :: failing rules r.
Proof. unfold failing; simpl. destruct (rule_holds rule r); reflexivity. Qed.

Lemma AlienContact_validate_of {conv : Conversions} kw (r : ex1.AlienContact) :
  validate_fields_of AlienContactM kw = Ok r ->
  validate_of AlienContactM kw
  = match failing AlienContact_rules r with
    | [] => Ok r
    | rule :: _ => Err [RuleViolation [] (rule_message rule)]
    end.
Proof. exact (validate_of_rules AlienContactM kw r). Qed.

Lemma SpaceMission_validate_of {conv : Conversions} kw (r : ex2.SpaceMission) :
  validate_fields_of SpaceMissionM kw = Ok r ->
  validate_of SpaceMissionM kw
  = match failing SpaceMission_rules r with
    | [] => Ok r
    | rule :: _ => Err [RuleViolation [] (rule_message rule)]
    end.
Proof. exact (validate_of_rules SpaceMissionM kw r). Qed.

Lemma below_half_spec (count size : Z) :
  below_half count size = true
  <-> (inject_Z count < inject_Z size / 2)%Q.
Proof.
  unfold below_half. rewrite negb_true_iff. split.
  - intros H. apply Qnot_le_lt. intros Hle.
    apply Qle_bool_iff in Hle. congruence.
  - intros H. destruct (Qle_bool (inject_Z size / 2) (inject_Z count)) eqn:E;
      [|reflexivity].
    apply Qle_bool_iff in E. exfalso. eapply Qlt_not_le; eassumption.
Qed.

Lemma truthy_false (o : option string) :
  truthy o = false <-> o = None \/ o = Some EmptyString.
Proof.
  destruct o as [[|c s]|]; simpl; split; intros H; auto;
    try discriminate; destruct H; discriminate.
Qed.

Lemma is_leader_spec (crew : list ex2.CrewMember) :
  existsb is_leader crew = true
  <-> exists mb, In mb crew
                 /\ (ex2.rank mb = ex2.captain \/ ex2.rank mb = ex2.commander).
Proof.
  rewrite existsb_exists. unfold is_leader.
  split; intros (mb & Hin & H); exists mb; (split; [assumption|]).
  - destruct (ex2.rank mb); auto; discriminate.
  - destruct H as [-> | ->]; reflexivity.
Qed.

(** C3, amended: on a field-valid mission of more than 365 days whose
    identifier starts with M and whose crew has a captain or a commander,
    the validation fails with the message of the experienced-crew rule
    exactly when the number of members with five or more years of
    experience is below the crew size divided by two in the rationals. *)
Theorem C3_experienced_crew_after_earlier_rules :
  forall (conv : Conversions) (kw : kwargs) (r : ex2.SpaceMission),
    validate_fields_of SpaceMissionM kw = Ok r ->
    365 < ex2.duration_days r ->
    rule_holds mission_id_prefix r = true ->
    rule_holds leader_present r = true ->
    (validate_of SpaceMissionM kw = Err [RuleViolation [] ex2.msg_experienced]
     <-> (inject_Z (experienced_count (ex2.crew r))
          < inject_Z (len (ex2.crew r)) / 2)%Q).
Proof.
  intros conv kw r Hf Hd Hid Hlead.
  rewrite (SpaceMission_validate_of kw r Hf).
  rewrite <- below_half_spec.
  unfold SpaceMission_rules. rewrite !failing_cons.
  rewrite Hid, Hlead.
  cbn [rule_holds experienced_crew]. apply Z.ltb_lt in Hd. rewrite Hd.
  cbn [implb].
  destruct (below_half _ _); cbn [negb].
  - split; reflexivity.
  - split; [|discriminate].
    destruct (rule_holds all_active r); intros E;
      [discriminate E | vm_compute in E; discriminate E].
Qed.

(** C5, amended: on a field-valid contact with a signal above 7.0 on which
    the three earlier rules hold, the validation fails with the message of
    the strong-signal rule exactly when the message is absent or the empty
    string, and returns the record otherwise. *)
Theorem C5_strong_signal_after_earlier_rules :
  forall (conv : Conversions) (kw : kwargs) (r : ex1.AlienContact),
    validate_fields_of AlienContactM kw = Ok r ->
    PrimFloat.ltb 7%float (ex1.signal_strength r) = true ->
    rule_holds contact_id_prefix r = true ->
    rule_holds physical_verified r = true ->
    rule_holds telepathic_witnesses r = true ->
    (validate_of AlienContactM kw = Err [RuleViolation [] ex1.msg_strong_signal]
     <-> ex1.message_received r = None
         \/ ex1.message_received r = Some EmptyString)
    /\ (truthy (ex1.message_received r) = true ->
        validate_of AlienContactM kw = Ok r).
Proof.
  intros conv kw r Hf Hs Hid Hph Htel.
  rewrite (AlienContact_validate_of kw r Hf).
  rewrite <- truthy_false.
  unfold AlienContact_rules. rewrite !failing_cons.
  rewrite Hid, Hph, Htel.
  cbn [rule_holds strong_signal_message]. rewrite Hs. cbn [implb].
  destruct (truthy (ex1.message_received r)).
  - split; [split; discriminate | reflexivity].
  - split; [split; reflexivity | discriminate].
Qed.

(** C8, amended: on a field-valid telepathic contact with fewer than three
    witnesses whose identifier starts with AC, the validation returns the
    error made of the single rule violation of the telepathic rule, and
    no declared field reports a violation. *)
Theorem C8_telepathic_after_prefix_rule :
  forall (conv : Conversions) (kw : kwargs) (r : ex1.AlienContact),
    validate_fields_of AlienContactM kw = Ok r ->
    ex1.contact_type r = ex1.telepathic ->
    ex1.witness_count r < 3 ->
    rule_holds contact_id_prefix r = true ->
    validate_of AlienContactM kw = Err [RuleViolation [] ex1.msg_telepathic]
    /\ accumulated (fields_of AlienContactM) [] kw = [].
Proof.
  intros conv kw r Hf Ht Hw Hid.
  rewrite (fields_Ok_accumulated AlienContactM kw r Hf).
  rewrite (AlienContact_validate_of kw r Hf).
  unfold AlienContact_rules. rewrite !failing_cons.
  rewrite Hid.
  cbn [rule_holds physical_verified telepathic_witnesses].
  rewrite Ht. cbn [ex1.ContactType_eqb implb].
  destruct (Z.leb_spec 3 (ex1.witness_count r)); [lia|].
  split; reflexivity.
Qed.

(** C9, amended: on a field-valid mission whose identifier starts with M
    and whose crew has neither a captain nor a commander, the validation
    returns the error of the leader rule; and on every field-valid mission
    whose crew has one, the result is not that error. *)
Theorem C9_leader_after_prefix_rule :
  forall (conv : Conversions) (kw : kwargs) (r : ex2.SpaceMission),
    validate_fields_of SpaceMissionM kw = Ok r ->
    (rule_holds mission_id_prefix r = true ->
     (forall mb, In mb (ex2.crew r) ->
                 ex2.rank mb <> ex2.captain /\ ex2.rank mb <> ex2.commander) ->
     validate_of SpaceMissionM kw = Err [RuleViolation [] ex2.msg_leader])
    /\ ((exists mb, In mb (ex2.crew r)
                    /\ (ex2.rank mb = ex2.captain \/ ex2.rank mb = ex2.commander)) ->
        validate_of SpaceMissionM kw <> Err [RuleViolation [] ex2.msg_leader]).
Proof.
  intros conv kw r Hf.
  rewrite (SpaceMission_validate_of kw r Hf).
  unfold SpaceMission_rules. rewrite !failing_cons.
  change (rule_holds leader_present r) with (existsb is_leader (ex2.crew r)).
  split.
  - intros Hid Hno. rewrite Hid.
    destruct (existsb is_leader (ex2.crew r)) eqn:E; [|reflexivity].
    apply is_leader_spec in E. destruct E as (mb & Hin & Hr).
    destruct (Hno mb Hin). tauto.
  - intros Hex. apply is_leader_spec in Hex. rewrite Hex.
    destruct (rule_holds mission_id_prefix r);
      [|intros E; vm_compute in E; discriminate E].
    destruct (rule_holds experienced_crew r);
      [|intros E; vm_compute in E; discriminate E].
    destruct (rule_holds all_active r);
      intros E; [discriminate E | vm_compute in E; discriminate E].
Qed.

(** C10, amended: on a field-valid contact with a signal above 7.0 whose
    message is the empty string and on which the three earlier rules hold,
    the validation returns the error of the strong-signal rule. *)
Theorem C10_empty_message_after_earlier_rules :
  forall (conv : Conversions) (kw : kwargs) (r : ex1.AlienContact),
    validate_fields_of AlienContactM kw = Ok r ->
    PrimFloat.ltb 7%float (ex1.signal_strength r) = true ->
    ex1.message_received r = Some EmptyString ->
    rule_holds contact_id_prefix r = true ->
    rule_holds physical_verified r = true ->
    rule_holds telepathic_witnesses r = true ->
    validate_of AlienContactM kw = Err [RuleViolation [] ex1.msg_strong_signal].
Proof.
  intros conv kw r Hf Hs Hm Hid Hph Htel.
  rewrite (AlienContact_validate_of kw r Hf).
  unfold AlienContact_rules. rewrite !failing_cons.
  rewrite Hid, Hph, Htel.
  cbn [rule_holds strong_signal_message]. rewrite Hs, Hm. reflexivity.
Qed.

(* ================================================================== *)
(** * The theorems on concrete inputs *)
(* ================================================================== *)

Section Concrete.

#[local] Existing Instance Inputs.conv.

Import Inputs.

(** A physical, unverified contact whose identifier does not start with
    AC: two rules fail, and the first one is reported. *)
Lemma C1_witness :
  validate_fields_of AlienContactM
    (contact "XX_2024_001" "physical" 5%float 5 no_message false)
  = Ok (contact_record "XX_2024_001" ex1.physical 5%float 5 None false)
  /\ failing (rules AlienContactM)
       (contact_record "XX_2024_001" ex1.physical 5%float 5 None false)
     = [contact_id_prefix; physical_verified]
  /\ validate_of AlienContactM
       (contact "XX_2024_001" "physical" 5%float 5 no_message false)
     = Err [RuleViolation [] ex1.msg_contact_id].
Proof.
  assert (validate_fields_of AlienContactM
            (contact "XX_2024_001" "physical" 5%float 5 no_message false)
          = Ok (contact_record "XX_2024_001" ex1.physical 5%float 5 None false))
    as H1 by (vm_compute; reflexivity).
  assert (failing (rules AlienContactM)
            (contact_record "XX_2024_001" ex1.physical 5%float 5 None false)
          = [contact_id_prefix; physical_verified])
    as H2 by reflexivity.
  exact (conj H1 (conj H2
           (C1_first_failing_rule_only conv AlienContactM _ _ _ _ _ H1 H2))).
Defined.


(** The mission of 900 days with one experienced member out of three, an
    identifier starting with M and a commander: 1 < 3/2. *)
Lemma C3_witness :
  validate_fields_of SpaceMissionM (mission "M2024_MARS" 900 one_of_three)
  = Ok (mission_record "M2024_MARS" 900 one_of_three_records)
  /\ (inject_Z (experienced_count one_of_three_records)
      < inject_Z (len one_of_three_records) / 2)%Q
  /\ validate_of SpaceMissionM (mission "M2024_MARS" 900 one_of_three)
     = Err [RuleViolation [] ex2.msg_experienced].
Proof.
  assert (validate_fields_of SpaceMissionM (mission "M2024_MARS" 900 one_of_three)
          = Ok (mission_record "M2024_MARS" 900 one_of_three_records))
    as H1 by (vm_compute; reflexivity).
  assert (inject_Z (experienced_count one_of_three_records)
          < inject_Z (len one_of_three_records) / 2)%Q
    as H2 by (vm_compute; reflexivity).
  split; [exact H1|]. split; [exact H2|].
  apply (C3_experienced_crew_after_earlier_rules conv _ _ H1);
    [reflexivity | reflexivity | reflexivity | exact H2].
Defined.

(** The mission above with an identifier that does not start with M is
    field-valid, lasts more than 365 days and has one experienced member
    out of three, yet the validation fails with the message of the
    mission-identifier rule, not with that of the experienced-crew rule. *)
Lemma C3_counterexample :
  validate_fields_of SpaceMissionM (mission "X2024_MARS" 900 one_of_three)
  = Ok (mission_record "X2024_MARS" 900 one_of_three_records)
  /\ 365 < ex2.duration_days (mission_record "X2024_MARS" 900 one_of_three_records)
  /\ (inject_Z (experienced_count one_of_three_records)
      < inject_Z (len one_of_three_records) / 2)%Q
  /\ validate_of SpaceMissionM (mission "X2024_MARS" 900 one_of_three)
     = Err [RuleViolation [] ex2.msg_mission_id]
  /\ validate_of SpaceMissionM (mission "X2024_MARS" 900 one_of_three)
     <> Err [RuleViolation [] ex2.msg_experienced].
Proof.
  repeat split; try (vm_compute; reflexivity).
  vm_compute. discriminate.
Qed.

(** Three fields of a station break their constraints at once. *)
Lemma C4_witness :
  (2 <= List.length (Declared.offending SpaceStationM station_three_bad_fields))%nat
  /\ exists errs,
       validate_of SpaceStationM station_three_bad_fields = Err errs
       /\ errs = accumulated (fields_of SpaceStationM) [] station_three_bad_fields
       /\ forallb field_level errs = true
       /\ constraint_locs errs
          = Declared.offending SpaceStationM station_three_bad_fields.
Proof.
  assert (2 <= List.length (Declared.offending SpaceStationM
                              station_three_bad_fields))%nat
    as H by (vm_compute; lia).
  exact (conj H (C4_offending_fields_all_reported conv SpaceStationM _ H)).
Defined.

Example station_three_bad_fields_report :
  Declared.offending SpaceStationM station_three_bad_fields
  = [[Key "station_id"]; [Key "crew_size"]; [Key "oxygen_level"]]
  /\ validate_of SpaceStationM station_three_bad_fields
     = Err [ConstraintViolation [Key "station_id"] (TooShort 3);
            ConstraintViolation [Key "crew_size"] (LessThanEqual 20);
            ConstraintViolation [Key "oxygen_level"] (LessThanEqualF 100%float)].
Proof. split; vm_compute; reflexivity. Qed.

(** A mission whose identifier is too short and whose second member has
    two offending fields: the three are reported together, the fields of
    the member at its index in the crew. *)
Example mission_one_too_young_report :
  Declared.offending SpaceMissionM (mission "M2" 900 one_too_young)
  = [[Key "mission_id"];
     [Key "crew"; Index 1; Key "member_id"];
     [Key "crew"; Index 1; Key "age"]]
  /\ validate_of SpaceMissionM (mission "M2" 900 one_too_young)
     = Err [ConstraintViolation [Key "mission_id"] (TooShort 5);
            ConstraintViolation [Key "crew"; Index 1; Key "member_id"]
              (TooShort 3);
            ConstraintViolation [Key "crew"; Index 1; Key "age"]
              (GreaterThanEqual 18)].
Proof. split; vm_compute; reflexivity. Qed.

(** A power level that is not a number is outside the declared range. *)
Example station_nan_power_level :
  Declared.offending SpaceStationM
    [("station_id", PStr "ISS001"); ("name", PStr "Station");
     ("crew_size", PInt 6); ("power_level", PFloat nan);
     ("oxygen_level", PFloat 50%float);
     ("last_maintenance", PStr "2026-02-01T10:30:00")]
  = [[Key "power_level"]].
Proof. vm_compute; reflexivity. Qed.

(** The first call of [main] in [ex1], signal 8.5 with a message, is
    accepted; the same call without the message fails on the strong-signal
    rule. *)
Lemma C5_witness :
  validate_of AlienContactM ex1.main_valid
  = Ok (contact_record "AC_2024_001" ex1.radio 8.5%float 5
          (Some "Greetings from Zeta Reticuli") false)
  /\ validate_of AlienContactM
       (contact "AC_2024_001" "radio" 8.5%float 5 no_message false)
     = Err [RuleViolation [] ex1.msg_strong_signal].
Proof.
  assert (validate_fields_of AlienContactM ex1.main_valid
          = Ok (contact_record "AC_2024_001" ex1.radio 8.5%float 5
                  (Some "Greetings from Zeta Reticuli") false))
    as H1 by (vm_compute; reflexivity).
  assert (validate_fields_of AlienContactM
            (contact "AC_2024_001" "radio" 8.5%float 5 no_message false)
          = Ok (contact_record "AC_2024_001" ex1.radio 8.5%float 5 None false))
    as H2 by (vm_compute; reflexivity).
  split.
  - apply (C5_strong_signal_after_earlier_rules conv _ _ H1); reflexivity.
  - apply (C5_strong_signal_after_earlier_rules conv _ _ H2);
      try reflexivity. left; reflexivity.
Defined.

(** With signal 8.5 and an empty message, present in the input, the
    validation fails on the strong-signal rule; and with the message
    omitted but an identifier that does not start with AC, it fails on the
    contact-identifier rule instead. *)
Lemma C5_counterexample :
  (validate_fields_of AlienContactM
     (contact "AC_2024_001" "radio" 8.5%float 5 empty_message false)
   = Ok (contact_record "AC_2024_001" ex1.radio 8.5%float 5
           (Some EmptyString) false)
   /\ get "message_received"
        (contact "AC_2024_001" "radio" 8.5%float 5 empty_message false)
      = Some (PStr EmptyString)
   /\ validate_of AlienContactM
        (contact "AC_2024_001" "radio" 8.5%float 5 empty_message false)
      = Err [RuleViolation [] ex1.msg_strong_signal])
  /\ (validate_fields_of AlienContactM
        (contact "XX_2024_001" "radio" 8.5%float 5 no_message false)
      = Ok (contact_record "XX_2024_001" ex1.radio 8.5%float 5 None false)
      /\ validate_of AlienContactM
           (contact "XX_2024_001" "radio" 8.5%float 5 no_message false)
         = Err [RuleViolation [] ex1.msg_contact_id]
      /\ validate_of AlienContactM
           (contact "XX_2024_001" "radio" 8.5%float 5 no_message false)
         <> Err [RuleViolation [] ex1.msg_strong_signal]).
Proof.
  repeat split; try (vm_compute; reflexivity).
  vm_compute. discriminate.
Qed.

(** The first call of [main] in [ex0]: crew size 6, power level 85.5,
    oxygen level 92.3, a valid identifier, name and date. *)
Lemma C6_witness :
  Declared.coerced_record SpaceStationM ex0.main_valid
  = Some (dump_of SpaceStationM station_record)
  /\ validate_of SpaceStationM ex0.main_valid = Ok station_record.
Proof.
  assert (Declared.coerced_record SpaceStationM ex0.main_valid
          = Some (dump_of SpaceStationM station_record))
    as H by (vm_compute; reflexivity).
  split; [exact H|].
  destruct (C6_valid_input_gives_record conv SpaceStationM ex0.main_valid _ H)
    as (r & Hd & Hf & Hok).
  assert (validate_fields_of SpaceStationM ex0.main_valid = Ok station_record)
    as E by (vm_compute; reflexivity).
  rewrite E in Hf. injection Hf as <-.
  apply Hok. reflexivity.
Defined.

(** The coerced values of that call, as the declarations read them. *)
Example main_valid_coerced :
  Declared.coerced_record SpaceStationM ex0.main_valid
  = Some [("station_id", PStr "ISS001");
          ("name", PStr "International Space Station");
          ("crew_size", PInt 6);
          ("power_level", PFloat 85.5%float);
          ("oxygen_level", PFloat 0x1.7133333333333p+6%float);
          ("last_maintenance", PDatetime (mk_datetime 2026 2 1 10 30 0));
          ("is_operational", PBool true);
          ("notes", PStr "All systems nominal.")].
Proof. vm_compute; reflexivity. Qed.

Example station_record_values :
  ex0.crew_size station_record = 6
  /\ ex0.power_level station_record = 85.5%float
  /\ ex0.oxygen_level station_record = 0x1.7133333333333p+6%float
  /\ ex0.station_id station_record = "ISS001".
Proof. repeat split. Qed.

(** The mission of [main] in [ex2], with its three crew members, validates
    again from its dump. *)
Lemma C7_witness :
  validate_of SpaceMissionM ex2.main_valid
  = Ok (mission_record "M2024_MARS" 900 main_crew_records)
  /\ validate_of SpaceMissionM
       (dump_of SpaceMissionM (mission_record "M2024_MARS" 900 main_crew_records))
     = Ok (mission_record "M2024_MARS" 900 main_crew_records).
Proof.
  assert (validate_of SpaceMissionM ex2.main_valid
          = Ok (mission_record "M2024_MARS" 900 main_crew_records))
    as H by (vm_compute; reflexivity).
  exact (conj H (C7_revalidation_idempotent conv SpaceMissionM _ _ H)).
Defined.

(** The second call of [main] in [ex1]: telepathic, one witness. *)
Lemma C8_witness :
  validate_fields_of AlienContactM ex1.main_invalid = Ok telepathic_record
  /\ validate_of AlienContactM ex1.main_invalid
     = Err [RuleViolation [] ex1.msg_telepathic]
  /\ accumulated (fields_of AlienContactM) [] ex1.main_invalid = [].
Proof.
  assert (validate_fields_of AlienContactM ex1.main_invalid
          = Ok telepathic_record)
    as H by (vm_compute; reflexivity).
  split; [exact H|].
  apply (C8_telepathic_after_prefix_rule conv _ _ H);
    [reflexivity | reflexivity | reflexivity].
Defined.

(** The same telepathic contact with an identifier that does not start
    with AC is field-valid and fails with the message of the
    contact-identifier rule, not with that of the telepathic rule. *)
Lemma C8_counterexample :
  validate_fields_of AlienContactM
    (contact "XX_2024_002" "telepathic" 5%float 1 no_message false)
  = Ok (contact_record "XX_2024_002" ex1.telepathic 5%float 1 None false)
  /\ validate_of AlienContactM
       (contact "XX_2024_002" "telepathic" 5%float 1 no_message false)
     = Err [RuleViolation [] ex1.msg_contact_id]
  /\ validate_of AlienContactM
       (contact "XX_2024_002" "telepathic" 5%float 1 no_message false)
     <> Err [RuleViolation [] ex1.msg_telepathic].
Proof.
  repeat split; try (vm_compute; reflexivity).
  vm_compute. discriminate.
Qed.

(** The second call of [main] in [ex2]: a single cadet. *)
Lemma C9_witness :
  validate_fields_of SpaceMissionM ex2.main_invalid = Ok test_mission_record
  /\ validate_of SpaceMissionM ex2.main_invalid
     = Err [RuleViolation [] ex2.msg_leader].
Proof.
  assert (validate_fields_of SpaceMissionM ex2.main_invalid
          = Ok test_mission_record)
    as H by (vm_compute; reflexivity).
  split; [exact H|].
  apply (proj1 (C9_leader_after_prefix_rule conv _ _ H)); [reflexivity|].
  intros mb [<-|[]]. split; discriminate.
Defined.

(** The single cadet on a mission whose identifier does not start with M:
    field-valid, no captain and no commander, and the validation fails
    with the message of the mission-identifier rule, not with that of the
    leader rule. *)
Lemma C9_counterexample :
  validate_fields_of SpaceMissionM (mission "X2026_TEST" 30 one_cadet)
  = Ok (mission_record "X2026_TEST" 30 one_cadet_records)
  /\ map ex2.rank one_cadet_records = [ex2.cadet]
  /\ validate_of SpaceMissionM (mission "X2026_TEST" 30 one_cadet)
     = Err [RuleViolation [] ex2.msg_mission_id]
  /\ validate_of SpaceMissionM (mission "X2026_TEST" 30 one_cadet)
     <> Err [RuleViolation [] ex2.msg_leader].
Proof.
  repeat split; try (vm_compute; reflexivity).
  vm_compute. discriminate.
Qed.

(** Signal 8.5 and an empty message on a contact that passes the three
    earlier rules. *)
Lemma C10_witness :
  validate_fields_of AlienContactM
    (contact "AC_2024_001" "radio" 8.5%float 5 empty_message false)
  = Ok (contact_record "AC_2024_001" ex1.radio 8.5%float 5
          (Some EmptyString) false)
  /\ validate_of AlienContactM
       (contact "AC_2024_001" "radio" 8.5%float 5 empty_message false)
     = Err [RuleViolation [] ex1.msg_strong_signal].
Proof.
  assert (validate_fields_of AlienContactM
            (contact "AC_2024_001" "radio" 8.5%float 5 empty_message false)
          = Ok (contact_record "AC_2024_001" ex1.radio 8.5%float 5
                  (Some EmptyString) false))
    as H by (vm_compute; reflexivity).
  split; [exact H|].
  apply (C10_empty_message_after_earlier_rules conv _ _ H); reflexivity.
Defined.

(** Signal 8.5 and an empty message on a contact whose identifier does not
    start with AC: field-valid, and rejected with the message of the
    contact-identifier rule, not with that of the strong-signal rule. *)
Lemma C10_counterexample :
  validate_fields_of AlienContactM
    (contact "XX_2024_001" "radio" 8.5%float 5 empty_message false)
  = Ok (contact_record "XX_2024_001" ex1.radio 8.5%float 5
          (Some EmptyString) false)
  /\ PrimFloat.ltb 7%float 8.5%float = true
  /\ validate_of AlienContactM
       (contact "XX_2024_001" "radio" 8.5%float 5 empty_message false)
     = Err [RuleViolation [] ex1.msg_contact_id]
  /\ validate_of AlienContactM
       (contact "XX_2024_001" "radio" 8.5%float 5 empty_message false)
     <> Err [RuleViolation [] ex1.msg_strong_signal].
Proof.
  repeat split; try (vm_compute; reflexivity).
  vm_compute. discriminate.
Qed.

(** The six calls of the [main] functions. *)
Example main_calls :
  validate_of SpaceStationM ex0.main_valid = Ok station_record
  /\ validate_of SpaceStationM ex0.main_invalid
     = Err [ConstraintViolation [Key "crew_size"] (LessThanEqual 20)]
  /\ validate_of AlienContactM ex1.main_valid
     = Ok (contact_record "AC_2024_001" ex1.radio 8.5%float 5
             (Some "Greetings from Zeta Reticuli") false)
  /\ validate_of AlienContactM ex1.main_invalid
     = Err [RuleViolation [] "Telepathic contact requires at least 3 witnesses"]
  /\ validate_of SpaceMissionM ex2.main_valid
     = Ok (mission_record "M2024_MARS" 900 main_crew_records)
  /\ validate_of SpaceMissionM ex2.main_invalid
     = Err [RuleViolation []
              "Mission must have at least one Commander or Captain"].
Proof. repeat split; vm_compute; reflexivity. Qed.

(** With one experienced member out of three, the true division of the
    rule gives 1 < 1.5, where an integer division would give 1 < 1. *)
Example true_division_not_floor :
  int_lt_float 1 (truediv 3 2) = true
  /\ below_half 1 3 = true
  /\ (1 <? 3 / 2) = false.
Proof. repeat split; vm_compute; reflexivity. Qed.

End Concrete.

(* ================================================================== *)
(** * Accepted records and reported errors *)
(* ================================================================== *)



Lemma failing_nil_all_hold {R} (rules : list (RuleSpec R)) r :
  failing rules r = [] <-> all_hold rules r = true.
Proof.
  unfold failing, all_hold. induction rules as [|rule rules IH]; simpl.
  - tauto.
  - destruct (rule_holds rule r); simpl; [exact IH|].
    split; discriminate.
Qed.

Section Accepted.

Context {conv : Conversions}.


(** A validation that returns a record went through a field phase that
    assembled this very record, and every rule holds of it. *)
Lemma validate_of_Ok_inv (m : Model) kw (r : record m) :
  validate_of m kw = Ok r ->
  validate_fields_of m kw = Ok r /\ all_hold (rules m) r = true.
Proof.
  intros H. unfold validate_of, model_validate in H.
  apply validate_with_Ok_inv in H. destruct H as (r0 & Hf & Ha).
  rewrite (model_validator_refines m kw r0 Hf) in Ha.
  pose proof (run_rules_Return _ _ _ Ha) as ->.
  split; [exact Hf|].
  apply failing_nil_all_hold. unfold run_rules in Ha.
  destruct (failing (rules m) r0); [reflexivity | discriminate].
Qed.

End Accepted.


(** X2: validation returns a record exactly when the field phase assembles
    that record and every rule of the record type holds of it. *)
Theorem accepted_iff_fields_and_rules :
  forall (conv : Conversions) (m : Model) (kw : kwargs) (r : record m),
    validate_of m kw = Ok r
    <-> validate_fields_of m kw = Ok r /\ all_hold (rules m) r = true.
Proof.
  intros conv m kw r. split.
  - apply validate_of_Ok_inv.
  - intros [Hf Hr]. unfold validate_of, model_validate.
    eapply validate_with_Ok; [exact Hf|].
    rewrite (model_validator_refines m kw r Hf).
    now apply run_rules_all_hold.
Qed.

(** X3: a failed validation reports either the violations accumulated over
    the fields, at least one and all of them field-level, or, on a
    field-valid input, exactly one rule violation, that of the first
    failing rule. *)
Theorem error_report_shape :
  forall (conv : Conversions) (m : Model) (kw : kwargs) (errs : list Violation),
    validate_of m kw = Err errs ->
    (errs = accumulated (fields_of m) [] kw
     /\ errs <> [] /\ forallb field_level errs = true)
    \/ (exists (r : record m) rule rest,
          validate_fields_of m kw = Ok r
          /\ failing (rules m) r = rule :: rest
          /\ errs = [RuleViolation [] (rule_message rule)]).
Proof.
  intros conv m kw errs H.
  destruct (validate_fields_of m kw) as [r|e] eqn:Hf.
  - right. rewrite (validate_of_rules m kw r Hf) in H.
    destruct (failing (rules m) r) as [|rule rest] eqn:E; [discriminate|].
    injection H as <-. exists r, rule, rest. auto.
  - left. destruct (repository_accumulating m [] kw) as [Hr Hfl].
    unfold validate_fields_of in Hf.
    unfold validate_of, model_validate, validate_with in H.
    rewrite Hf in H. injection H as <-.
    rewrite Hf in Hr. destruct Hr as [-> Hne]. auto.
Qed.

Lemma NoDup_map_inj {A B} (f : A -> B) (l : list A) a b :
  NoDup (map f l) -> In a l -> In b l -> f a = f b -> a = b.
Proof.
  induction l as [|x l IH]; simpl; [tauto|].
  intros Hnd Ha Hb E. inversion Hnd as [|? ? Hnotin Hnd']; subst.
  destruct Ha as [->|Ha], Hb as [->|Hb]; auto.
  - exfalso. apply Hnotin. rewrite E. now apply in_map.
  - exfalso. apply Hnotin. rewrite <- E. now apply in_map.
Qed.

(** The messages of the rules of a record type are pairwise different. *)
Lemma rule_messages_distinct (m : Model) : NoDup (map rule_message (rules m)).
Proof.
  destruct m; simpl; repeat constructor; simpl;
    intros H; repeat destruct H as [H|H];
    try (vm_compute in H; discriminate H); assumption.
Qed.

Lemma failing_incl {R} (rules : list (RuleSpec R)) r rule :
  In rule (failing rules r) -> In rule rules.
Proof. unfold failing. intros H. apply filter_In in H. tauto. Qed.

(** X4: on a field-valid input, validation fails with the message of a
    given rule exactly when that rule is the first rule, in declaration
    order, that fails on the record. *)
Theorem rule_reported_iff_first_failing :
  forall (conv : Conversions) (m : Model) (kw : kwargs) (r : record m)
         (rule : RuleSpec (record m)),
    validate_fields_of m kw = Ok r ->
    In rule (rules m) ->
    (validate_of m kw = Err [RuleViolation [] (rule_message rule)]
     <-> exists rest, failing (rules m) r = rule :: rest).
Proof.
  intros conv m kw r rule Hf Hin.
  rewrite (validate_of_rules m kw r Hf).
  destruct (failing (rules m) r) as [|rule' rest] eqn:E.
  - split; [discriminate | intros [? ?]; discriminate].
  - split.
    + intros H. injection H as Hmsg.
      assert (rule' = rule) as ->.
      { apply (NoDup_map_inj rule_message (rules m));
          [apply rule_messages_distinct | | assumption | assumption].
        apply (failing_incl _ r). rewrite E. now left. }
      eauto.
    + intros [rest' H]. injection H as -> _. reflexivity.
Qed.

Lemma in_accumulated (fields : list FieldInfo) l kw fi v :
  In fi fields -> In v (fi_errors fi l kw) -> In v (accumulated fields l kw).
Proof.
  intros Hfi Hv. unfold accumulated. apply in_flat_map. eauto.
Qed.

(** A field declared without a default reports that it is missing. *)
Lemma missing_field_error {A} (f : Field A) l kw :
  f_default f = None -> get (f_name f) kw = None ->
  fi_errors (info f) l kw = [MissingField (l ++ [Key (f_name f)])].
Proof.
  intros Hd Hg. simpl. unfold validate_field. now rewrite Hg, Hd.
Qed.

Ltac missing f :=
  exists (info f); split;
  [ simpl; tauto
  | rewrite (missing_field_error f) by (first [reflexivity | assumption]);
    simpl; left; reflexivity ].

(** X5: an input that leaves out a field declared without a default is
    rejected, and the report holds the missing-field violation of that
    field. *)
Theorem missing_required_field_reported :
  forall (conv : Conversions) (m : Model) (kw : kwargs) (n : string),
    In n (required_fields m) ->
    get n kw = None ->
    exists errs,
      validate_of m kw = Err errs /\ In (MissingField [Key n]) errs.
Proof.
  intros conv m kw n Hin Hg.
  assert (exists fi, In fi (fields_of m)
                     /\ In (MissingField [Key n]) (fi_errors fi [] kw))
    as (fi & Hfi & Hv).
  { destruct m; simpl in Hin;
      repeat (destruct Hin as [<-|Hin];
        [ first
            [ missing ex0.f_station_id | missing ex0.f_name
            | missing ex0.f_crew_size | missing ex0.f_power_level
            | missing ex0.f_oxygen_level | missing ex0.f_last_maintenance
            | missing ex1.f_contact_id | missing ex1.f_timestamp
            | missing ex1.f_location | missing ex1.f_contact_type
            | missing ex1.f_signal_strength | missing ex1.f_duration_minutes
            | missing ex1.f_witness_count
            | missing ex2.f_member_id | missing ex2.f_name
            | missing ex2.f_rank | missing ex2.f_age
            | missing ex2.f_specialization | missing ex2.f_years_experience
            | missing ex2.f_mission_id | missing ex2.f_mission_name
            | missing ex2.f_destination | missing ex2.f_launch_date
            | missing ex2.f_duration_days | missing ex2.f_crew
            | missing ex2.f_budget_millions ] | ]);
      contradiction. }
  exists (accumulated (fields_of m) [] kw).
  split; [|eapply in_accumulated; eassumption].
  destruct (repository_accumulating m [] kw) as [Hr _].
  unfold validate_of, model_validate, validate_with.
  rewrite (report_Err _ _ Hr); [reflexivity|].
  intros E. pose proof (in_accumulated _ _ _ _ _ Hfi Hv) as Hacc.
  unfold fields_of in Hacc. rewrite E in Hacc. contradiction.
Qed.

Lemma default_used {A} (f : Field A) l kw a d :
  f_default f = Some d -> get (f_name f) kw = None ->
  validate_field f l kw = Ok a -> a = d.
Proof.
  intros Hd Hg. unfold validate_field. rewrite Hg, Hd. now intros [= <-].
Qed.

(** X6: in every record that validation returns, a defaulted field that
    the input leaves out has its declared default: [is_operational] is
    true, [notes] and [message_received] are [None], [is_verified] is
    false, [is_active] is true and [mission_status] is "planned". *)
Theorem omitted_fields_take_defaults :
  forall (conv : Conversions) (m : Model) (kw : kwargs) (r : record m),
    validate_of m kw = Ok r -> defaults_applied m kw r.
Proof.
  intros conv m kw r H. apply validate_of_Ok_inv in H. destruct H as [Hf _].
  unfold validate_fields_of in Hf.
  destruct m;
    cbn [validate_fields base_model ex0.SpaceStation_model
         ex1.AlienContact_model ex2.CrewMember_model ex2.SpaceMission_model]
      in Hf;
    invert_chain Hf; simpl; repeat split; intros Hg;
    match goal with
    | H : validate_field ?f [] kw = Ok ?a |- ?a = _ =>
        exact (default_used f [] kw a _ eq_refl Hg H)
    end.
Qed.

(* ================================================================== *)
(** * The rules one by one *)
(* ================================================================== *)

Ltac other_message :=
  let E := fresh "E" in
  intros E; first [discriminate E | vm_compute in E; discriminate E].

(** X7: a field-valid contact is rejected with the contact-identifier
    message exactly when its identifier does not start with AC, whatever
    the other rules say. *)
Theorem contact_id_rule_decisive :
  forall (conv : Conversions) (kw : kwargs) (r : ex1.AlienContact),
    validate_fields_of AlienContactM kw = Ok r ->
    (validate_of AlienContactM kw = Err [RuleViolation [] ex1.msg_contact_id]
     <-> startswith (ex1.contact_id r) "AC" = false).
Proof.
  intros conv kw r Hf.
  rewrite (AlienContact_validate_of kw r Hf).
  unfold AlienContact_rules. rewrite !failing_cons.
  change (rule_holds contact_id_prefix r)
    with (startswith (ex1.contact_id r) "AC").
  destruct (startswith (ex1.contact_id r) "AC").
  - split; [|discriminate].
    destruct (rule_holds physical_verified r); [|other_message].
    destruct (rule_holds telepathic_witnesses r); [|other_message].
    destruct (rule_holds strong_signal_message r); other_message.
  - split; reflexivity.
Qed.

(** X8: a field-valid mission is rejected with the mission-identifier
    message exactly when its identifier does not start with M. *)
Theorem mission_id_rule_decisive :
  forall (conv : Conversions) (kw : kwargs) (r : ex2.SpaceMission),
    validate_fields_of SpaceMissionM kw = Ok r ->
    (validate_of SpaceMissionM kw = Err [RuleViolation [] ex2.msg_mission_id]
     <-> startswith (ex2.mission_id r) "M" = false).
Proof.
  intros conv kw r Hf.
  rewrite (SpaceMission_validate_of kw r Hf).
  unfold SpaceMission_rules. rewrite !failing_cons.
  change (rule_holds mission_id_prefix r)
    with (startswith (ex2.mission_id r) "M").
  destruct (startswith (ex2.mission_id r) "M").
  - split; [|discriminate].
    destruct (rule_holds leader_present r); [|other_message].
    destruct (rule_holds experienced_crew r); [|other_message].
    destruct (rule_holds all_active r); other_message.
  - split; reflexivity.
Qed.

(** X9: a field-valid contact is rejected with the physical-contact
    message exactly when its identifier starts with AC, its type is
    physical and it is not verified. *)
Theorem physical_rule_characterised :
  forall (conv : Conversions) (kw : kwargs) (r : ex1.AlienContact),
    validate_fields_of AlienContactM kw = Ok r ->
    (validate_of AlienContactM kw = Err [RuleViolation [] ex1.msg_physical]
     <-> startswith (ex1.contact_id r) "AC" = true
         /\ ex1.contact_type r = ex1.physical
         /\ ex1.is_verified r = false).
Proof.
  intros conv kw r Hf.
  rewrite (AlienContact_validate_of kw r Hf).
  unfold AlienContact_rules. rewrite !failing_cons.
  change (rule_holds contact_id_prefix r)
    with (startswith (ex1.contact_id r) "AC").
  destruct (startswith (ex1.contact_id r) "AC");
    [|split; [other_message | intros [? _]; discriminate]].
  cbn [rule_holds physical_verified].
  destruct (ex1.contact_type r) eqn:Et; cbn [ex1.ContactType_eqb implb];
    try (split; [|intros (_ & ? & _); discriminate];
         destruct (rule_holds telepathic_witnesses r); [|other_message];
         destruct (rule_holds strong_signal_message r); other_message).
  destruct (ex1.is_verified r).
  - split; [|intros (_ & _ & ?); discriminate].
    destruct (rule_holds telepathic_witnesses r); [|other_message].
    destruct (rule_holds strong_signal_message r); other_message.
  - split; auto.
Qed.

Lemma forallb_is_active_false (crew : list ex2.CrewMember) :
  forallb ex2.is_active crew = false
  <-> exists mb, In mb crew /\ ex2.is_active mb = false.
Proof.
  induction crew as [|m crew IH]; simpl.
  - split; [discriminate | intros (? & [] & _)].
  - destruct (ex2.is_active m) eqn:E; simpl.
    + rewrite IH. split.
      * intros (mb & Hin & H). eauto.
      * intros (mb & [<-|Hin] & H); [congruence | eauto].
    + split; [eauto | reflexivity].
Qed.

(** X10: a field-valid mission is rejected with the all-active message
    exactly when the three earlier rules hold and some member of the crew
    is not active. *)
Theorem all_active_rule_characterised :
  forall (conv : Conversions) (kw : kwargs) (r : ex2.SpaceMission),
    validate_fields_of SpaceMissionM kw = Ok r ->
    (validate_of SpaceMissionM kw = Err [RuleViolation [] ex2.msg_active]
     <-> rule_holds mission_id_prefix r = true
         /\ rule_holds leader_present r = true
         /\ rule_holds experienced_crew r = true
         /\ exists mb, In mb (ex2.crew r) /\ ex2.is_active mb = false).
Proof.
  intros conv kw r Hf.
  rewrite (SpaceMission_validate_of kw r Hf).
  rewrite <- forallb_is_active_false.
  unfold SpaceMission_rules. rewrite !failing_cons.
  change (rule_holds all_active r) with (forallb ex2.is_active (ex2.crew r)).
  destruct (rule_holds mission_id_prefix r);
    [|split; [other_message | intros (? & _); discriminate]].
  destruct (rule_holds leader_present r);
    [|split; [other_message | intros (_ & ? & _); discriminate]].
  destruct (rule_holds experienced_crew r);
    [|split; [other_message | intros (_ & _ & ? & _); discriminate]].
  destruct (forallb ex2.is_active (ex2.crew r)).
  - split; [discriminate | intros (_ & _ & _ & ?); discriminate].
  - split; auto.
Qed.

(** X11: a field-valid mission of 365 days or fewer is never rejected
    with the experienced-crew message, whatever the experience of its
    crew. *)
Theorem short_mission_skips_experience_rule :
  forall (conv : Conversions) (kw : kwargs) (r : ex2.SpaceMission),
    validate_fields_of SpaceMissionM kw = Ok r ->
    ex2.duration_days r <= 365 ->
    validate_of SpaceMissionM kw <> Err [RuleViolation [] ex2.msg_experienced].
Proof.
  intros conv kw r Hf Hd.
  rewrite (SpaceMission_validate_of kw r Hf).
  unfold SpaceMission_rules. rewrite !failing_cons.
  cbn [rule_holds experienced_crew].
  destruct (Z.ltb_spec 365 (ex2.duration_days r)); [lia|]. cbn [implb].
  destruct (rule_holds mission_id_prefix r); [|other_message].
  destruct (rule_holds leader_present r); [|other_message].
  destruct (rule_holds all_active r); other_message.
Qed.

(** X12: a field-valid contact whose signal is not above 7.0 is never
    rejected with the strong-signal message, with or without a message. *)
Theorem weak_signal_needs_no_message :
  forall (conv : Conversions) (kw : kwargs) (r : ex1.AlienContact),
    validate_fields_of AlienContactM kw = Ok r ->
    PrimFloat.ltb 7%float (ex1.signal_strength r) = false ->
    validate_of AlienContactM kw
    <> Err [RuleViolation [] ex1.msg_strong_signal].
Proof.
  intros conv kw r Hf Hs.
  rewrite (AlienContact_validate_of kw r Hf).
  unfold AlienContact_rules. rewrite !failing_cons.
  cbn [rule_holds strong_signal_message]. rewrite Hs. cbn [implb].
  destruct (rule_holds contact_id_prefix r); [|other_message].
  destruct (rule_holds physical_verified r); [|other_message].
  destruct (rule_holds telepathic_witnesses r); other_message.
Qed.

(* ================================================================== *)
(** * Enum fields given by value *)
(* ================================================================== *)

Lemma ContactType_by_value (s : string) (c : ex1.ContactType) :
  member_by_value (enum_members ex1.ContactType_class) s = Some c
  <-> s = ex1.ContactType_name c.
Proof.
  cbn [member_by_value enum_members ex1.ContactType_class].
  destruct (String.eqb_spec "radio" s) as [<-|N1];
    [destruct c; simpl; split; intros H;
     first [reflexivity | discriminate H]|].
  destruct (String.eqb_spec "visual" s) as [<-|N2];
    [destruct c; simpl; split; intros H;
     first [reflexivity | discriminate H]|].
  destruct (String.eqb_spec "physical" s) as [<-|N3];
    [destruct c; simpl; split; intros H;
     first [reflexivity | discriminate H]|].
  destruct (String.eqb_spec "telepathic" s) as [<-|N4];
    [destruct c; simpl; split; intros H;
     first [reflexivity | discriminate H]|].
  destruct c; simpl; split; intros H;
    first [discriminate H | symmetry in H; contradiction].
Qed.

Lemma Rank_by_value (s : string) (c : ex2.Rank) :
  member_by_value (enum_members ex2.Rank_class) s = Some c
  <-> s = ex2.Rank_name c.
Proof.
  cbn [member_by_value enum_members ex2.Rank_class].
  destruct (String.eqb_spec "cadet" s) as [<-|N1];
    [destruct c; simpl; split; intros H;
     first [reflexivity | discriminate H]|].
  destruct (String.eqb_spec "officer" s) as [<-|N2];
    [destruct c; simpl; split; intros H;
     first [reflexivity | discriminate H]|].
  destruct (String.eqb_spec "lieutenant" s) as [<-|N3];
    [destruct c; simpl; split; intros H;
     first [reflexivity | discriminate H]|].
  destruct (String.eqb_spec "captain" s) as [<-|N4];
    [destruct c; simpl; split; intros H;
     first [reflexivity | discriminate H]|].
  destruct (String.eqb_spec "commander" s) as [<-|N5];
    [destruct c; simpl; split; intros H;
     first [reflexivity | discriminate H]|].
  destruct c; simpl; split; intros H;
    first [discriminate H | symmetry in H; contradiction].
Qed.

(** X13: a contact type given as a string is taken as the member whose
    value is that string, and a string that is the value of no member is
    reported as a type mismatch on the field. *)
Theorem contact_type_by_value :
  forall (kw : kwargs) (s : string),
    get "contact_type" kw = Some (PStr s) ->
    (forall c, validate_field ex1.f_contact_type [] kw = Ok c
               <-> s = ex1.ContactType_name c)
    /\ ((forall c, s <> ex1.ContactType_name c) ->
        validate_field ex1.f_contact_type [] kw
        = Err [TypeMismatch [Key "contact_type"] "ContactType"]).
Proof.
  intros kw s Hg.
  assert (validate_field ex1.f_contact_type [] kw
          = match member_by_value (enum_members ex1.ContactType_class) s with
            | Some c => Ok c
            | None => Err [TypeMismatch [Key "contact_type"] "ContactType"]
            end) as E.
  { unfold validate_field. cbn [f_name ex1.f_contact_type required].
    rewrite Hg. reflexivity. }
  rewrite E. split.
  - intros c. rewrite <- ContactType_by_value.
    destruct (member_by_value _ s); split; congruence.
  - intros Hno.
    destruct (member_by_value _ s) as [c|] eqn:Ec; [|reflexivity].
    apply ContactType_by_value in Ec. now elim (Hno c).
Qed.

(** X14: a rank given as a string is taken as the member whose value is
    that string, and a string that is the value of no member is reported
    as a type mismatch on the field. *)
Theorem rank_by_value :
  forall (kw : kwargs) (s : string),
    get "rank" kw = Some (PStr s) ->
    (forall c, validate_field ex2.f_rank [] kw = Ok c
               <-> s = ex2.Rank_name c)
    /\ ((forall c, s <> ex2.Rank_name c) ->
        validate_field ex2.f_rank [] kw
        = Err [TypeMismatch [Key "rank"] "Rank"]).
Proof.
  intros kw s Hg.
  assert (validate_field ex2.f_rank [] kw
          = match member_by_value (enum_members ex2.Rank_class) s with
            | Some c => Ok c
            | None => Err [TypeMismatch [Key "rank"] "Rank"]
            end) as E.
  { unfold validate_field. cbn [f_name ex2.f_rank required].
    rewrite Hg. reflexivity. }
  rewrite E. split.
  - intros c. rewrite <- Rank_by_value.
    destruct (member_by_value _ s); split; congruence.
  - intros Hno.
    destruct (member_by_value _ s) as [c|] eqn:Ec; [|reflexivity].
    apply Rank_by_value in Ec. now elim (Hno c).
Qed.

(* ================================================================== *)
(** * Printing validated records *)
(* ================================================================== *)

Lemma print_loop {A} (line : A -> string) (l : list A) (out : stdout) :
  fold_left (fun out x => print (line x) out) l out = out ++ map line l.
Proof.
  revert out. induction l as [|x l IH]; intros out; simpl.
  - now rewrite app_nil_r.
  - rewrite IH. unfold print. now rewrite <- app_assoc.
Qed.

(** X15: for a contact that validation returned with a signal above 7.0,
    [print_contact] adds to the output the title, the six lines of the
    contact and then the line of its message, which is not empty. *)
Theorem print_contact_strong_signal_shows_message :
  forall (conv : Conversions) (fmt : Formatting) (kw : kwargs)
         (r : ex1.AlienContact) (title : string) (out : stdout),
    validate_of AlienContactM kw = Ok r ->
    PrimFloat.ltb 7%float (ex1.signal_strength r) = true ->
    exists msg,
      ex1.message_received r = Some msg
      /\ msg <> EmptyString
      /\ ex1.print_contact title r out
         = out ++ contact_lines title r
               ++ [("Message: '" ++ msg ++ "'")%string].
Proof.
  intros conv fmt kw r title out H Hs.
  apply validate_of_Ok_inv in H. destruct H as [_ Hr].
  unfold rules, AlienContact_rules, all_hold in Hr. cbn [forallb] in Hr.
  rewrite !andb_true_iff in Hr. destruct Hr as (_ & _ & _ & Hstrong & _).
  cbn [rule_holds strong_signal_message] in Hstrong.
  rewrite Hs in Hstrong. cbn [implb] in Hstrong.
  unfold ex1.print_contact. rewrite Hstrong.
  destruct (ex1.message_received r) as [[|c msg]|]; try discriminate Hstrong.
  exists (String c msg). split; [reflexivity|]. split; [discriminate|].
  unfold print, contact_lines. simpl str_of_optional.
  rewrite <- !app_assoc. reflexivity.
Qed.

(** X16: [print_mission] adds to the output its eight heading lines and
    then one line for each member of the crew, in the order of the crew;
    for a mission that validation returned these are between nine and
    twenty lines. *)
Theorem print_mission_lists_crew :
  forall (conv : Conversions) (fmt : Formatting) (kw : kwargs)
         (r : ex2.SpaceMission) (out : stdout),
    validate_of SpaceMissionM kw = Ok r ->
    ex2.print_mission r out
    = out ++ mission_heading r ++ map crew_line (ex2.crew r)
    /\ (9 <= List.length (mission_heading r ++ map crew_line (ex2.crew r))
        <= 20)%nat.
Proof.
  intros conv fmt kw r out H.
  apply validate_of_Ok_inv in H. destruct H as [Hf _].
  apply SpaceMission_fields_Ok_crew in Hf. split.
  - unfold ex2.print_mission.
    rewrite (print_loop crew_line). unfold print, mission_heading.
    rewrite <- !app_assoc. reflexivity.
  - rewrite length_app, length_map. simpl. lia.
Qed.

(* ================================================================== *)
(** * The further theorems on concrete inputs *)
(* ================================================================== *)

Section FurtherConcrete.

#[local] Existing Instance Inputs.conv.
#[local] Existing Instance Cases.fmt.

Import Inputs Cases.


Lemma error_report_shape_witness :
  validate_of AlienContactM ex1.main_invalid
  = Err [RuleViolation [] ex1.msg_telepathic]
  /\ (([RuleViolation [] ex1.msg_telepathic]
       = accumulated (fields_of AlienContactM) [] ex1.main_invalid
       /\ [RuleViolation [] ex1.msg_telepathic] <> []
       /\ forallb field_level [RuleViolation [] ex1.msg_telepathic] = true)
      \/ (exists (r : record AlienContactM) rule rest,
            validate_fields_of AlienContactM ex1.main_invalid = Ok r
            /\ failing (rules AlienContactM) r = rule :: rest
            /\ [RuleViolation [] ex1.msg_telepathic]
               = [RuleViolation [] (rule_message rule)])).
Proof.
  assert (validate_of AlienContactM ex1.main_invalid
          = Err [RuleViolation [] ex1.msg_telepathic])
    as H by (vm_compute; reflexivity).
  exact (conj H (error_report_shape conv AlienContactM _ _ H)).
Defined.

Lemma rule_reported_iff_first_failing_witness :
  validate_fields_of AlienContactM ex1.main_invalid = Ok telepathic_record
  /\ In telepathic_witnesses (rules AlienContactM)
  /\ validate_of AlienContactM ex1.main_invalid
     = Err [RuleViolation [] ex1.msg_telepathic].
Proof.
  assert (validate_fields_of AlienContactM ex1.main_invalid
          = Ok telepathic_record) as H1 by (vm_compute; reflexivity).
  assert (In telepathic_witnesses (rules AlienContactM)) as H2
    by (simpl; tauto).
  split; [exact H1|]. split; [exact H2|].
  apply (rule_reported_iff_first_failing conv AlienContactM _ _ _ H1 H2).
  exists []. reflexivity.
Defined.

Lemma missing_required_field_reported_witness :
  In "crew_size" (required_fields SpaceStationM)
  /\ get "crew_size" station_id_only = None
  /\ exists errs,
       validate_of SpaceStationM station_id_only = Err errs
       /\ In (MissingField [Key "crew_size"]) errs.
Proof.
  assert (In "crew_size" (required_fields SpaceStationM)) as H1
    by (simpl; tauto).
  assert (get "crew_size" station_id_only = None) as H2 by reflexivity.
  exact (conj H1 (conj H2
           (missing_required_field_reported conv SpaceStationM _ _ H1 H2))).
Defined.

Lemma omitted_fields_take_defaults_witness :
  validate_of SpaceMissionM ex2.main_valid
  = Ok (mission_record "M2024_MARS" 900 main_crew_records)
  /\ defaults_applied SpaceMissionM ex2.main_valid
       (mission_record "M2024_MARS" 900 main_crew_records).
Proof.
  assert (validate_of SpaceMissionM ex2.main_valid
          = Ok (mission_record "M2024_MARS" 900 main_crew_records))
    as H by (vm_compute; reflexivity).
  exact (conj H (omitted_fields_take_defaults conv SpaceMissionM _ _ H)).
Defined.

Lemma contact_id_rule_decisive_witness :
  validate_fields_of AlienContactM
    (contact "XX_2024_001" "physical" 5%float 5 no_message false)
  = Ok (contact_record "XX_2024_001" ex1.physical 5%float 5 None false)
  /\ validate_of AlienContactM
       (contact "XX_2024_001" "physical" 5%float 5 no_message false)
     = Err [RuleViolation [] ex1.msg_contact_id].
Proof.
  assert (validate_fields_of AlienContactM
            (contact "XX_2024_001" "physical" 5%float 5 no_message false)
          = Ok (contact_record "XX_2024_001" ex1.physical 5%float 5 None false))
    as H by (vm_compute; reflexivity).
  split; [exact H|].
  apply (contact_id_rule_decisive conv _ _ H). reflexivity.
Defined.

Lemma mission_id_rule_decisive_witness :
  validate_fields_of SpaceMissionM (mission "X2024_MARS" 900 one_of_three)
  = Ok (mission_record "X2024_MARS" 900 one_of_three_records)
  /\ validate_of SpaceMissionM (mission "X2024_MARS" 900 one_of_three)
     = Err [RuleViolation [] ex2.msg_mission_id].
Proof.
  assert (validate_fields_of SpaceMissionM
            (mission "X2024_MARS" 900 one_of_three)
          = Ok (mission_record "X2024_MARS" 900 one_of_three_records))
    as H by (vm_compute; reflexivity).
  split; [exact H|].
  apply (mission_id_rule_decisive conv _ _ H). reflexivity.
Defined.

Lemma physical_rule_characterised_witness :
  validate_fields_of AlienContactM
    (contact "AC_2024_001" "physical" 5%float 5 no_message false)
  = Ok (contact_record "AC_2024_001" ex1.physical 5%float 5 None false)
  /\ validate_of AlienContactM
       (contact "AC_2024_001" "physical" 5%float 5 no_message false)
     = Err [RuleViolation [] ex1.msg_physical].
Proof.
  assert (validate_fields_of AlienContactM
            (contact "AC_2024_001" "physical" 5%float 5 no_message false)
          = Ok (contact_record "AC_2024_001" ex1.physical 5%float 5 None false))
    as H by (vm_compute; reflexivity).
  split; [exact H|].
  apply (physical_rule_characterised conv _ _ H). repeat split.
Defined.

Lemma all_active_rule_characterised_witness :
  validate_fields_of SpaceMissionM (mission "M2024_MARS" 900 one_inactive)
  = Ok (mission_record "M2024_MARS" 900 one_inactive_records)
  /\ validate_of SpaceMissionM (mission "M2024_MARS" 900 one_inactive)
     = Err [RuleViolation [] ex2.msg_active].
Proof.
  assert (validate_fields_of SpaceMissionM
            (mission "M2024_MARS" 900 one_inactive)
          = Ok (mission_record "M2024_MARS" 900 one_inactive_records))
    as H by (vm_compute; reflexivity).
  split; [exact H|].
  apply (all_active_rule_characterised conv _ _ H).
  repeat split; try (vm_compute; reflexivity).
  exists (ex2.Build_CrewMember "LT002" "John Smith" ex2.lieutenant 33
            "Navigation" 6 false).
  split; [simpl; tauto | reflexivity].
Defined.

Lemma short_mission_skips_experience_rule_witness :
  validate_fields_of SpaceMissionM (mission "M2024_MARS" 365 one_of_three)
  = Ok (mission_record "M2024_MARS" 365 one_of_three_records)
  /\ ex2.duration_days (mission_record "M2024_MARS" 365 one_of_three_records)
     <= 365
  /\ validate_of SpaceMissionM (mission "M2024_MARS" 365 one_of_three)
     <> Err [RuleViolation [] ex2.msg_experienced].
Proof.
  assert (validate_fields_of SpaceMissionM
            (mission "M2024_MARS" 365 one_of_three)
          = Ok (mission_record "M2024_MARS" 365 one_of_three_records))
    as H1 by (vm_compute; reflexivity).
  assert (ex2.duration_days
            (mission_record "M2024_MARS" 365 one_of_three_records) <= 365)
    as H2 by (simpl; lia).
  exact (conj H1 (conj H2
           (short_mission_skips_experience_rule conv _ _ H1 H2))).
Defined.

(** That mission starts with M and has a commander, so the validation
    reaches the experience check; with one experienced member out of three
    it is accepted at 365 days and rejected at 366. *)
Example experience_rule_at_365_days :
  validate_of SpaceMissionM (mission "M2024_MARS" 365 one_of_three)
  = Ok (mission_record "M2024_MARS" 365 one_of_three_records)
  /\ validate_of SpaceMissionM (mission "M2024_MARS" 366 one_of_three)
     = Err [RuleViolation [] ex2.msg_experienced].
Proof. split; vm_compute; reflexivity. Qed.

Lemma weak_signal_needs_no_message_witness :
  validate_fields_of AlienContactM
    (contact "AC_2024_001" "radio" 7%float 5 no_message false)
  = Ok (contact_record "AC_2024_001" ex1.radio 7%float 5 None false)
  /\ PrimFloat.ltb 7%float
       (ex1.signal_strength
          (contact_record "AC_2024_001" ex1.radio 7%float 5 None false))
     = false
  /\ validate_of AlienContactM
       (contact "AC_2024_001" "radio" 7%float 5 no_message false)
     <> Err [RuleViolation [] ex1.msg_strong_signal].
Proof.
  assert (validate_fields_of AlienContactM
            (contact "AC_2024_001" "radio" 7%float 5 no_message false)
          = Ok (contact_record "AC_2024_001" ex1.radio 7%float 5 None false))
    as H1 by (vm_compute; reflexivity).
  assert (PrimFloat.ltb 7%float
            (ex1.signal_strength
               (contact_record "AC_2024_001" ex1.radio 7%float 5 None false))
          = false) as H2 by reflexivity.
  exact (conj H1 (conj H2 (weak_signal_needs_no_message conv _ _ H1 H2))).
Defined.

(** That contact passes the rules before the strong-signal rule, so the
    validation reaches it; without a message it is accepted at signal 7.0
    and rejected at 7.5. *)
Example strong_signal_rule_at_7 :
  validate_of AlienContactM
    (contact "AC_2024_001" "radio" 7%float 5 no_message false)
  = Ok (contact_record "AC_2024_001" ex1.radio 7%float 5 None false)
  /\ validate_of AlienContactM
       (contact "AC_2024_001" "radio" 7.5%float 5 no_message false)
     = Err [RuleViolation [] ex1.msg_strong_signal].
Proof. split; vm_compute; reflexivity. Qed.

Lemma contact_type_by_value_witness :
  get "contact_type" (contact_by_value "telepathic")
  = Some (PStr "telepathic")
  /\ validate_field ex1.f_contact_type [] (contact_by_value "telepathic")
     = Ok ex1.telepathic.
Proof.
  assert (get "contact_type" (contact_by_value "telepathic")
          = Some (PStr "telepathic")) as H by reflexivity.
  split; [exact H|].
  apply (proj1 (contact_type_by_value _ _ H)). reflexivity.
Defined.

Lemma rank_by_value_witness :
  get "rank" (member_by_value "commander") = Some (PStr "commander")
  /\ validate_field ex2.f_rank [] (member_by_value "commander")
     = Ok ex2.commander.
Proof.
  assert (get "rank" (member_by_value "commander")
          = Some (PStr "commander")) as H by reflexivity.
  split; [exact H|].
  apply (proj1 (rank_by_value _ _ H)). reflexivity.
Defined.

Lemma print_contact_strong_signal_shows_message_witness :
  validate_of AlienContactM ex1.main_valid
  = Ok (contact_record "AC_2024_001" ex1.radio 8.5%float 5
          (Some "Greetings from Zeta Reticuli") false)
  /\ exists msg,
       Some "Greetings from Zeta Reticuli" = Some msg
       /\ msg <> EmptyString
       /\ ex1.print_contact "Valid contact report:"
            (contact_record "AC_2024_001" ex1.radio 8.5%float 5
               (Some "Greetings from Zeta Reticuli") false) []
          = [] ++ contact_lines "Valid contact report:"
                    (contact_record "AC_2024_001" ex1.radio 8.5%float 5
                       (Some "Greetings from Zeta Reticuli") false)
               ++ [("Message: '" ++ msg ++ "'")%string].
Proof.
  assert (validate_of AlienContactM ex1.main_valid
          = Ok (contact_record "AC_2024_001" ex1.radio 8.5%float 5
                  (Some "Greetings from Zeta Reticuli") false))
    as H by (vm_compute; reflexivity).
  split; [exact H|].
  exact (print_contact_strong_signal_shows_message conv fmt _ _
           "Valid contact report:" [] H eq_refl).
Defined.

Lemma print_mission_lists_crew_witness :
  validate_of SpaceMissionM ex2.main_valid
  = Ok (mission_record "M2024_MARS" 900 main_crew_records)
  /\ ex2.print_mission (mission_record "M2024_MARS" 900 main_crew_records) []
     = ["Valid mission created:";
        "Mission: Mars Colony Establishment";
        "ID: M2024_MARS";
        "Destination: Mars";
        "Duration: 900 days";
        "Budget: $2500.0M";
        "Crew size: 3";
        "Crew members:";
        "- Sarah Connor (commander)- Mission Command";
        "- John Smith (lieutenant)- Navigation";
        "- Alice Johnson (officer)- Engineering"].
Proof.
  assert (validate_of SpaceMissionM ex2.main_valid
          = Ok (mission_record "M2024_MARS" 900 main_crew_records))
    as H by (vm_compute; reflexivity).
  split; [exact H|].
  rewrite (proj1 (print_mission_lists_crew conv fmt _ _ [] H)).
  vm_compute. reflexivity.
Defined.

End FurtherConcrete.
